(** * Question-asset generation workflow and create-question form state

    A shallow embedding of the route handler [POST] of the
    generate-question-assets API route and of the form-state updaters of
    the create-question page, with the properties of the workflow
    (validation, prompt construction, response normalisation, merge policy,
    form-shape invariant) stated and proved over it. *)

From Stdlib Require Import String Ascii List NArith Arith Bool Lia SpecFloat.
Import ListNotations.
Open Scope list_scope.

(** ** JavaScript strings

    A JavaScript string is a sequence of UTF-16 code units.  Literals of the
    source are ASCII and are written with [lit]. *)

Module JS.

Definition jsstring := list N.

Definition lit (s : string) : jsstring :=
  map N_of_ascii (list_ascii_of_string s).

(** The line feed written [\n] in the source's literals. *)
Definition nl : jsstring := [10%N].

(** The double-quote character. *)
Definition dq : jsstring := [34%N].

Fixpoint str_eqb (a b : jsstring) : bool :=
  match a, b with
  | [], [] => true
  | x :: a', y :: b' => N.eqb x y && str_eqb a' b'
  | _, _ => false
  end.

Definition is_empty (s : jsstring) : bool :=
  match s with [] => true | _ :: _ => false end.

(** ECMAScript WhiteSpace and LineTerminator code points, the characters
    [String.prototype.trim] removes. *)
Definition is_ws (c : N) : bool :=
  ((9 <=? c) && (c <=? 13) || (c =? 32) || (c =? 160) || (c =? 5760)
   || (8192 <=? c) && (c <=? 8202) || (c =? 8232) || (c =? 8233)
   || (c =? 8239) || (c =? 8287) || (c =? 12288) || (c =? 65279))%N.

Fixpoint trimStart (s : jsstring) : jsstring :=
  match s with
  | c :: s' => if is_ws c then trimStart s' else s
  | [] => []
  end.

Definition trimEnd (s : jsstring) : jsstring := rev (trimStart (rev s)).

(** [s.trim()] *)
Definition trim (s : jsstring) : jsstring := trimEnd (trimStart s).

(** [s.startsWith(p)] *)
Fixpoint startsWith (p s : jsstring) : bool :=
  match p, s with
  | [], _ => true
  | x :: p', y :: s' => N.eqb x y && startsWith p' s'
  | _ :: _, [] => false
  end.

(** [s.endsWith(p)] *)
Definition endsWith (p s : jsstring) : bool := startsWith (rev p) (rev s).

(** [s.replace(/^p/, '')] for a literal pattern [p] anchored at the start:
    the only candidate match is the prefix of [s]. *)
Definition removePrefix (p s : jsstring) : jsstring :=
  if startsWith p s then skipn (length p) s else s.

(** [s.replace(/p$/, '')] for a literal pattern [p] anchored at the end (no
    [m] flag, so [$] is the end of the input): the only candidate match is
    the suffix of [s]. *)
Definition removeSuffix (p s : jsstring) : jsstring :=
  if endsWith p s then firstn (length s - length p) s else s.

(** [a.join(sep)] on an array of strings. *)
Fixpoint join (sep : jsstring) (l : list jsstring) : jsstring :=
  match l with
  | [] => []
  | [x] => x
  | x :: rest => x ++ sep ++ join sep rest
  end.

(** [a.map((x, i) => f i x)] and [a.filter((x, i) => f i x)], with the index
    of the first element as a parameter. *)
Fixpoint mapi_from {A B} (f : nat -> A -> B) (i : nat) (l : list A)
  : list B :=
  match l with
  | [] => []
  | x :: rest => f i x :: mapi_from f (S i) rest
  end.

Fixpoint filteri_from {A} (f : nat -> A -> bool) (i : nat) (l : list A)
  : list A :=
  match l with
  | [] => []
  | x :: rest =>
      if f i x then x :: filteri_from f (S i) rest
      else filteri_from f (S i) rest
  end.

Definition mapi {A B} (f : nat -> A -> B) (l : list A) : list B :=
  mapi_from f 0 l.

Definition filteri {A} (f : nat -> A -> bool) (l : list A) : list A :=
  filteri_from f 0 l.

Definition digit (d : nat) : N := (48 + N.of_nat d)%N.

Fixpoint decimal_digits (fuel n : nat) (acc : jsstring) : jsstring :=
  match fuel with
  | O => acc
  | S fuel' =>
      let acc' := digit (n mod 10) :: acc in
      if n <? 10 then acc' else decimal_digits fuel' (n / 10) acc'
  end.

(** [String(n)] for a non-negative integer (array lengths and indices). *)
Definition ofNat (n : nat) : jsstring := decimal_digits (S n) n [].

End JS.

Import JS.

(** ** JavaScript values, exceptions and the handler's observable effects *)

Module Runtime.

(** Values an object graph produced by [JSON.parse] is made of, together with
    [undefined], the result of reading a property that does not exist.
    Numbers are IEEE 754 doubles.  An object lists its own properties in
    insertion order. *)
#[local] Unset Elimination Schemes.
Inductive value :=
| VUndefined
| VNull
| VBool (b : bool)
| VNum (x : spec_float)
| VStr (s : jsstring)
| VArr (items : list value)
| VObj (props : list (jsstring * value)).
#[local] Set Elimination Schemes.

(** Exceptions thrown inside the handler: [SyntaxError] by [JSON.parse],
    [TypeError] by a property read on [null] or [undefined], and the plain
    [Error] the handler throws itself. *)
Inductive exn :=
| SyntaxError (message : jsstring)
| TypeError (message : jsstring)
| Error (message : jsstring).

Definition message (e : exn) : jsstring :=
  match e with SyntaxError m | TypeError m | Error m => m end.

Inductive result (A : Type) :=
| Ok (a : A)
| Throw (e : exn).
Arguments Ok {A} a.
Arguments Throw {A} e.

Definition bind {A B} (r : result A) (k : A -> result B) : result B :=
  match r with Ok a => k a | Throw e => Throw e end.

Notation "x <- r ;; k" := (bind r (fun x => k))
  (at level 61, r at next level, right associativity).

(** JavaScript truthiness ([ToBoolean]). *)
Definition truthy (v : value) : bool :=
  match v with
  | VUndefined | VNull => false
  | VBool b => b
  | VNum (S754_zero _) | VNum S754_nan => false
  | VNum _ => true
  | VStr s => negb (is_empty s)
  | VArr _ | VObj _ => true
  end.

Fixpoint lookup (k : jsstring) (props : list (jsstring * value)) : value :=
  match props with
  | [] => VUndefined
  | (k', v) :: rest => if str_eqb k k' then v else lookup k rest
  end.

(** [v.k] for the property names the handler reads ([starterCode], [python],
    [javascript], [cpp], [java], [hiddenTestCases], [input],
    [expectedOutput]): none of them is defined on a built-in prototype, so
    the read yields the own property of an object and [undefined] on every
    other value, and throws on [null] and [undefined]. *)
Definition getProp (v : value) (k : jsstring) : result value :=
  match v with
  | VUndefined =>
      Throw (TypeError (lit "Cannot read properties of undefined (reading '"
                          ++ k ++ lit "')"))
  | VNull =>
      Throw (TypeError (lit "Cannot read properties of null (reading '"
                          ++ k ++ lit "')"))
  | VObj props => Ok (lookup k props)
  | _ => Ok VUndefined
  end.

(** [Array.isArray(v)] *)
Definition isArray (v : value) : bool :=
  match v with VArr _ => true | _ => false end.

(** [a.length] and [a[0]] of an array (read only after [isArray]). *)
Definition items (v : value) : list value :=
  match v with VArr l => l | _ => [] end.

Definition first (v : value) : value := nth 0 (items v) VUndefined.

(** Arguments of a console call. *)
Inductive logarg :=
| LText (s : jsstring)
| LExn (e : exn).

Inductive logentry :=
| ConsoleError (args : list logarg)
| ConsoleWarn (args : list logarg).

(** Body of a [NextResponse.json] response. *)
Inductive body :=
| ErrorBody (error : jsstring)
| AssetsBody (assets : value).

Record response := { status : nat; payload : body }.

End Runtime.

Import Runtime.

(** ** The route handler *)

Module Route.

(** The request body, a JSON object typed [GenerationRequestData]; a field
    the body does not carry is [None] ([undefined] after destructuring). *)
Record GenerationRequestData := {
  problemDescription : option jsstring;
  constraints : option jsstring;
  inputFormat : option jsstring;
  outputFormat : option jsstring;
  exampleInputs : option (list jsstring);
  exampleOutputs : option (list jsstring);
  explanations : option (list jsstring)
}.

(** A value of the [requiredFields] object: a string field or an array
    field. *)
Inductive field :=
| FText (v : option jsstring)
| FList (v : option (list jsstring)).

(** [!value]: [undefined] and the empty string are falsy, an array never. *)
Definition falsy (f : field) : bool :=
  match f with
  | FText None | FList None => true
  | FText (Some s) => is_empty s
  | FList (Some _) => false
  end.

(** [String(value)]: an array is rendered as its elements joined by commas. *)
Definition toString (f : field) : jsstring :=
  match f with
  | FText (Some s) => s
  | FList (Some l) => join (lit ",") l
  | FText None | FList None => lit "undefined"
  end.

(** [`${x}`] for a possibly absent string. *)
Definition text (v : option jsstring) : jsstring := toString (FText v).

Definition blank (s : jsstring) : bool := is_empty (trim s).

(** The filter predicate [!value || String(value).trim() === '']. *)
Definition isMissing (f : field) : bool := falsy f || blank (toString f).

Definition requiredFields (b : GenerationRequestData)
  : list (jsstring * field) :=
  [ (lit "problemDescription", FText (problemDescription b));
    (lit "constraints", FText (constraints b));
    (lit "inputFormat", FText (inputFormat b));
    (lit "outputFormat", FText (outputFormat b));
    (lit "exampleInputs", FList (exampleInputs b));
    (lit "exampleOutputs", FList (exampleOutputs b));
    (lit "explanations", FList (explanations b)) ].

Definition missingFields (b : GenerationRequestData) : list jsstring :=
  map fst (filter (fun entry => isMissing (snd entry)) (requiredFields b)).

Definition missingFieldsError (missing : list jsstring) : jsstring :=
  lit "Missing required fields: " ++ join (lit ", ") missing.

Definition exampleInputsError : jsstring :=
  lit "At least one valid example input is required.".

Definition exampleOutputsError : jsstring :=
  lit "Example outputs are required, must match the number of inputs, and cannot be empty.".

Definition notConfiguredError : jsstring :=
  lit "AI service is not configured on the server.".

Definition processingError : jsstring :=
  lit "Failed to process AI response. Please check the format or try again.".

Definition structureError : jsstring :=
  lit "Invalid or incomplete structure in AI response.".

Definition errorResponse (code : nat) (msg : jsstring) : response :=
  {| status := code; payload := ErrorBody msg |}.

(** The input-validation block: [inl r] when the handler returns the
    response [r] from it; [inr (inputs, outputs)] when the request passes,
    with the two example arrays, which are present by then. *)
Definition validateInput (b : GenerationRequestData)
  : response + (list jsstring * list jsstring) :=
  let missing := missingFields b in
  if 0 <? length missing then
    inl (errorResponse 400 (missingFieldsError missing))
  else
    match exampleInputs b with
    | None => inl (errorResponse 400 exampleInputsError)
    | Some inputs =>
        if (length inputs =? 0) || existsb blank inputs then
          inl (errorResponse 400 exampleInputsError)
        else
          match exampleOutputs b with
          | None => inl (errorResponse 400 exampleOutputsError)
          | Some outputs =>
              if negb (length outputs =? length inputs)
                 || existsb blank outputs
              then inl (errorResponse 400 exampleOutputsError)
              else inr (inputs, outputs)
          end
    end.

(** *** Prompt construction *)

(** [explanations && explanations[index] ? `Explanation:\n${...}` : ''] *)
Definition explanationPart (expl : option (list jsstring)) (index : nat)
  : jsstring :=
  match expl with
  | None => []
  | Some l =>
      match nth_error l index with
      | Some e => if is_empty e then [] else lit "Explanation:" ++ nl ++ e
      | None => []
      end
  end.

(** One element of [exampleInputs.map((input, index) => ...)]. *)
Definition exampleBlock (outputs : list jsstring)
  (expl : option (list jsstring)) (index : nat) (input : jsstring)
  : jsstring :=
  nl ++ lit "Example " ++ ofNat (index + 1) ++ lit ":" ++ nl
  ++ lit "Input:" ++ nl
  ++ input ++ nl
  ++ lit "Output:" ++ nl
  ++ text (nth_error outputs index) ++ nl
  ++ explanationPart expl index ++ nl.

Definition exampleBlocks (inputs outputs : list jsstring)
  (expl : option (list jsstring)) : list jsstring :=
  mapi (exampleBlock outputs expl) inputs.

Definition examplesString (inputs outputs : list jsstring)
  (expl : option (list jsstring)) : jsstring :=
  join (nl ++ lit "---" ++ nl) (exampleBlocks inputs outputs expl).

Definition quoted (s : string) : jsstring := dq ++ lit s ++ dq.

Definition schemaLines : list jsstring :=
  [ lit "{";
    lit "  " ++ quoted "starterCode" ++ lit ": {";
    lit "    " ++ quoted "python" ++ lit ": " ++ quoted "..." ++ lit ",";
    lit "    " ++ quoted "javascript" ++ lit ": " ++ quoted "..." ++ lit ",";
    lit "    " ++ quoted "cpp" ++ lit ": " ++ quoted "..." ++ lit ",";
    lit "    " ++ quoted "java" ++ lit ": " ++ quoted "...";
    lit "  },";
    lit "  " ++ quoted "hiddenTestCases" ++ lit ": [";
    lit "    {" ++ quoted "input" ++ lit ": " ++ quoted "..." ++ lit ", "
      ++ quoted "expectedOutput" ++ lit ": " ++ quoted "..." ++ lit "},";
    lit "    {" ++ quoted "input" ++ lit ": " ++ quoted "..." ++ lit ", "
      ++ quoted "expectedOutput" ++ lit ": " ++ quoted "..." ++ lit "},";
    lit "    // ... exactly 20 items total ...";
    lit "  ]";
    lit "}" ].

Definition buildPrompt (b : GenerationRequestData)
  (inputs outputs : list jsstring) : jsstring :=
  join nl
    ([ lit "You are a helpful assistant for creating competitive programming problems. Based on the following problem details, generate LeetCode-style starter code snippets and hidden test cases.";
       [];
       lit "Problem Description:";
       text (problemDescription b);
       [];
       lit "Constraints:";
       text (constraints b);
       [];
       lit "Input Format:";
       text (inputFormat b);
       [];
       lit "Output Format:";
       text (outputFormat b);
       [];
       lit "Examples:";
       examplesString inputs outputs (explanations b);
       [];
       lit "INSTRUCTIONS:";
       lit "1.  Generate LeetCode-style starter code snippets (just the class or function definition, no input/output handling) for Python, JavaScript, C++, and Java.";
       lit "2.  Generate exactly 20 diverse hidden test cases. Include edge cases (empty, single element, max constraints), small cases, typical cases, and potentially tricky cases based on the constraints and examples.";
       lit "3.  Return the results ONLY as a single JSON object in the following exact format (no markdown code blocks, no extra text before or after):";
       [] ]
     ++ schemaLines ++ [ [] ]).

(** *** Cleaning and checking the generator's answer *)

Definition fence : jsstring := lit "```".
Definition fenceJson : jsstring := lit "```json".

(** The fence-stripping block applied to [responseText]. *)
Definition cleanResponse (responseText : jsstring) : jsstring :=
  let cleaned := trim responseText in
  if startsWith fenceJson cleaned then
    removeSuffix (nl ++ fence) (removePrefix (fenceJson ++ nl) cleaned)
  else if startsWith fence cleaned then
    removeSuffix (nl ++ fence) (removePrefix (fence ++ nl) cleaned)
  else cleaned.

(** [a || b] on conditions that may throw: [b] is evaluated only when [a]
    is false. *)
Definition orElse (a b : result bool) : result bool :=
  x <- a ;; if x then Ok true else b.

(** [!e] *)
Definition absent (e : result value) : result bool :=
  v <- e ;; Ok (negb (truthy v)).

Definition starterCode (ga : value) : result value :=
  getProp ga (lit "starterCode").

Definition hiddenTestCases (ga : value) : result value :=
  getProp ga (lit "hiddenTestCases").

(** The condition of the structural check, in the source's order. *)
Definition invalidStructure (ga : value) : result bool :=
  orElse (absent (starterCode ga))
  (orElse (absent (sc <- starterCode ga ;; getProp sc (lit "python")))
  (orElse (absent (sc <- starterCode ga ;; getProp sc (lit "javascript")))
  (orElse (absent (sc <- starterCode ga ;; getProp sc (lit "cpp")))
  (orElse (absent (sc <- starterCode ga ;; getProp sc (lit "java")))
  (orElse (absent (hiddenTestCases ga))
  (orElse (h <- hiddenTestCases ga ;; Ok (negb (isArray h)))
  (orElse (h <- hiddenTestCases ga ;; Ok (length (items h) =? 0))
  (orElse (absent (h <- hiddenTestCases ga ;; getProp (first h) (lit "input")))
          (absent (h <- hiddenTestCases ga ;;
                   getProp (first h) (lit "expectedOutput"))))))))))).

Definition lengthWarning (n : nat) : logentry :=
  ConsoleWarn
    [LText (lit "Gemini returned " ++ ofNat n ++ lit " test cases instead of 20.")].

Section Handler.

(** [JSON.parse] of the runtime, which throws a [SyntaxError] on text that
    is not JSON. *)
Variable JSON_parse : jsstring -> result value.

(** The generator: [model.generateContent(prompt)] followed by
    [response.text()]; the call may throw. *)
Variable generateContent : jsstring -> result jsstring.

(** The body of the inner [try]: the parsed assets and the warnings logged,
    or the exception caught by the inner [catch]. *)
Definition parseAssets (cleanedResponse : jsstring)
  : result (value * list logentry) :=
  generatedAssets <- JSON_parse cleanedResponse ;;
  invalid <- invalidStructure generatedAssets ;;
  if invalid then Throw (Error structureError)
  else
    h <- hiddenTestCases generatedAssets ;;
    let n := length (items h) in
    Ok (generatedAssets,
        if (n <? 18) || (22 <? n) then [lengthWarning n] else []).

(** The response normaliser: fence stripping, then the inner [try]. *)
Definition normalize (responseText : jsstring)
  : result (value * list logentry) :=
  parseAssets (cleanResponse responseText).

(** The handler: the console output and the response, for the value of
    [process.env.GEMINI_API_KEY] and the request body as [request.json()]
    returned it.  The authorisation test is on a constant [true] and has no
    branch here; the CORS headers added to every response are outside the
    model. *)
Definition POST (GEMINI_API_KEY : option jsstring)
  (b : GenerationRequestData) : list logentry * response :=
  match validateInput b with
  | inl r => ([], r)
  | inr (inputs, outputs) =>
      if falsy (FText GEMINI_API_KEY) then
        ([ConsoleError [LText (lit "Gemini API Key is not configured.")]],
         errorResponse 500 notConfiguredError)
      else
        match generateContent (buildPrompt b inputs outputs) with
        | Throw e =>
            ([ConsoleError
                [LText (lit "Error in /api/generate-question-assets:"); LExn e]],
             errorResponse 500 (lit "Generation failed: " ++ message e))
        | Ok responseText =>
            match normalize responseText with
            | Throw parseError =>
                ([ConsoleError
                    [LText (lit "Failed to parse Gemini response:");
                     LText responseText];
                  ConsoleError [LText (lit "Parse error:"); LExn parseError]],
                 errorResponse 500 processingError)
            | Ok (generatedAssets, warnings) =>
                (warnings,
                 {| status := 200; payload := AssetsBody generatedAssets |})
            end
        end
  end.

End Handler.

End Route.

Import Route.

(** ** The create-question form *)

Module Form.

Record TestCase := { input : jsstring; expectedOutput : jsstring }.

Record StarterCode := {
  python : jsstring;
  javascript : jsstring;
  cpp : jsstring;
  java : jsstring
}.

Record Content := {
  problemDescription : jsstring;
  constraints : jsstring;
  inputFormat : jsstring;
  outputFormat : jsstring;
  exampleInputs : list jsstring;
  exampleOutputs : list jsstring;
  explanations : list jsstring;
  hiddenTestCases : list TestCase;
  starterCode : StarterCode
}.

Record FormData := {
  subjectId : jsstring;
  type : jsstring;
  order : N;
  isActive : bool;
  deadline : jsstring;
  content : Content
}.

Definition emptyTestCase : TestCase := {| input := []; expectedOutput := [] |}.

Definition initialFormData : FormData :=
  {| subjectId := lit "icp";
     type := lit "coding";
     order := 1;
     isActive := true;
     deadline := [];
     content :=
       {| problemDescription := [];
          constraints := [];
          inputFormat := [];
          outputFormat := [];
          exampleInputs := [ [] ];
          exampleOutputs := [ [] ];
          explanations := [ [] ];
          hiddenTestCases := [ emptyTestCase ];
          starterCode :=
            {| python := []; javascript := []; cpp := []; java := [] |} |} |}.

(** [{ ...prev, content: c }] *)
Definition withContent (prev : FormData) (c : Content) : FormData :=
  {| subjectId := subjectId prev;
     type := type prev;
     order := order prev;
     isActive := isActive prev;
     deadline := deadline prev;
     content := c |}.

(** [{ ...c, exampleInputs: i, exampleOutputs: o, explanations: e }] *)
Definition withExamples (c : Content) (i o e : list jsstring) : Content :=
  {| problemDescription := problemDescription c;
     constraints := constraints c;
     inputFormat := inputFormat c;
     outputFormat := outputFormat c;
     exampleInputs := i;
     exampleOutputs := o;
     explanations := e;
     hiddenTestCases := hiddenTestCases c;
     starterCode := starterCode c |}.

(** [{ ...c, starterCode: sc, hiddenTestCases: tcs }] *)
Definition withAssets (c : Content) (sc : StarterCode) (tcs : list TestCase)
  : Content :=
  {| problemDescription := problemDescription c;
     constraints := constraints c;
     inputFormat := inputFormat c;
     outputFormat := outputFormat c;
     exampleInputs := exampleInputs c;
     exampleOutputs := exampleOutputs c;
     explanations := explanations c;
     hiddenTestCases := tcs;
     starterCode := sc |}.

Inductive ExampleField := ExampleInputs | ExampleOutputs | Explanations.

Inductive TestCaseField := Input | ExpectedOutput.

(** [a.map((item, i) => i === index ? value : item)] *)
Definition setAt {A} (index : nat) (f : A -> A) (l : list A) : list A :=
  mapi (fun i item => if i =? index then f item else item) l.

(** [a.filter((_, i) => i !== index)] *)
Definition removeAt {A} (index : nat) (l : list A) : list A :=
  filteri (fun i _ => negb (i =? index)) l.

(** The updaters passed to [setFormData]: each maps the previous state
    [prev] to the next one. *)

Definition handleExampleChange (index : nat) (field : ExampleField)
  (value : jsstring) (prev : FormData) : FormData :=
  let c := content prev in
  let set := setAt index (fun _ => value) in
  withContent prev
    match field with
    | ExampleInputs =>
        withExamples c (set (exampleInputs c)) (exampleOutputs c)
          (explanations c)
    | ExampleOutputs =>
        withExamples c (exampleInputs c) (set (exampleOutputs c))
          (explanations c)
    | Explanations =>
        withExamples c (exampleInputs c) (exampleOutputs c)
          (set (explanations c))
    end.

Definition addExample (prev : FormData) : FormData :=
  let c := content prev in
  withContent prev
    (withExamples c (exampleInputs c ++ [ [] ]) (exampleOutputs c ++ [ [] ])
       (explanations c ++ [ [] ])).

(** [removeExample] reads the size guard from [formData], the state of the
    render the handler belongs to, and filters [prev]. *)
Definition removeExample (formData : FormData) (index : nat)
  (prev : FormData) : FormData :=
  if length (exampleInputs (content formData)) <=? 1 then prev
  else
    let c := content prev in
    withContent prev
      (withExamples c (removeAt index (exampleInputs c))
         (removeAt index (exampleOutputs c))
         (removeAt index (explanations c))).

Definition setTestCaseField (field : TestCaseField) (value : jsstring)
  (tc : TestCase) : TestCase :=
  match field with
  | Input => {| input := value; expectedOutput := expectedOutput tc |}
  | ExpectedOutput => {| input := input tc; expectedOutput := value |}
  end.

Definition handleTestCaseChange (index : nat) (field : TestCaseField)
  (value : jsstring) (prev : FormData) : FormData :=
  let c := content prev in
  withContent prev
    (withAssets c (starterCode c)
       (setAt index (setTestCaseField field value) (hiddenTestCases c))).

Definition addTestCase (prev : FormData) : FormData :=
  let c := content prev in
  withContent prev
    (withAssets c (starterCode c) (hiddenTestCases c ++ [ emptyTestCase ])).

Definition removeTestCase (formData : FormData) (index : nat)
  (prev : FormData) : FormData :=
  if length (hiddenTestCases (content formData)) <=? 1 then prev
  else
    let c := content prev in
    withContent prev
      (withAssets c (starterCode c) (removeAt index (hiddenTestCases c))).

(** The editing events of the examples and test-case sections. *)
Inductive event :=
| AddExample
| RemoveExample (index : nat)
| ExampleChange (index : nat) (field : ExampleField) (value : jsstring)
| AddTestCase
| RemoveTestCase (index : nat)
| TestCaseChange (index : nat) (field : TestCaseField) (value : jsstring).

(** One event: the handler created by the render of [formData] runs and its
    updater is applied to that same state. *)
Definition step (formData : FormData) (ev : event) : FormData :=
  match ev with
  | AddExample => addExample formData
  | RemoveExample i => removeExample formData i formData
  | ExampleChange i f v => handleExampleChange i f v formData
  | AddTestCase => addTestCase formData
  | RemoveTestCase i => removeTestCase formData i formData
  | TestCaseChange i f v => handleTestCaseChange i f v formData
  end.

(** The shape the examples and test-case sections keep. *)
Definition wellShaped (s : FormData) : Prop :=
  let c := content s in
  length (exampleOutputs c) = length (exampleInputs c)
  /\ length (explanations c) = length (exampleInputs c)
  /\ 1 <= length (exampleInputs c)
  /\ 1 <= length (hiddenTestCases c).

(** The success body of the route as [handleGenerateAssets] reads it; a
    property the body does not carry is [None]. *)
Record GeneratedData := {
  generatedStarterCode : option StarterCode;
  generatedTestCases : option (list TestCase)
}.

(** The updater [handleGenerateAssets] passes to [setFormData] after a
    successful call. *)
Definition mergeGenerated (generatedData : GeneratedData) (prev : FormData)
  : FormData :=
  let c := content prev in
  withContent prev
    (withAssets c
       match generatedStarterCode generatedData with
       | Some sc => sc
       | None => starterCode c
       end
       match generatedTestCases generatedData with
       | Some tcs => if 0 <? length tcs then tcs else hiddenTestCases c
       | None => hiddenTestCases c
       end).

(** [!a[0].trim()]; reading [trim] of a missing first element throws. *)
Definition firstBlank (a : list jsstring) : option bool :=
  match a with
  | x :: _ => Some (Route.blank x)
  | [] => None
  end.

(** The pre-check of [handleGenerateAssets]: [Some true] when generation
    proceeds, [Some false] when the form asks for the fields to be filled
    in, [None] when reading the first example throws. *)
Definition readyToGenerate (formData : FormData) : option bool :=
  let c := content formData in
  if Route.blank (problemDescription c) || Route.blank (constraints c)
     || Route.blank (inputFormat c) || Route.blank (outputFormat c)
  then Some false
  else
    match firstBlank (exampleInputs c) with
    | None => None
    | Some true => Some false
    | Some false =>
        match firstBlank (exampleOutputs c) with
        | None => None
        | Some b => Some (negb b)
        end
    end.

(** The body [handleGenerateAssets] posts to the route: the three example
    arrays are sent without their blank entries. *)
Definition generationRequest (formData : FormData)
  : Route.GenerationRequestData :=
  let c := content formData in
  let kept := filter (fun ex => negb (Route.blank ex)) in
  {| Route.problemDescription := Some (problemDescription c);
     Route.constraints := Some (constraints c);
     Route.inputFormat := Some (inputFormat c);
     Route.outputFormat := Some (outputFormat c);
     Route.exampleInputs := Some (kept (exampleInputs c));
     Route.exampleOutputs := Some (kept (exampleOutputs c));
     Route.explanations := Some (kept (explanations c)) |}.

End Form.

(** ** Vocabulary of the properties *)

Module Props.

(** The four required text fields of a request, by name. *)
Definition textFields (b : GenerationRequestData)
  : list (jsstring * option jsstring) :=
  [ (lit "problemDescription", problemDescription b);
    (lit "constraints", constraints b);
    (lit "inputFormat", inputFormat b);
    (lit "outputFormat", outputFormat b) ].

(** A text field is absent, or blank after trimming. *)
Definition absentOrBlank (v : option jsstring) : bool :=
  match v with
  | None => true
  | Some s => blank s
  end.

Definition textFieldsFilled (b : GenerationRequestData) : bool :=
  forallb (fun entry => negb (absentOrBlank (snd entry))) (textFields b).

(** The rule on [exampleInputs]: at least one entry, none blank. *)
Definition inputsRule (inputs : list jsstring) : bool :=
  negb (length inputs =? 0) && negb (existsb blank inputs).

(** The rule on [exampleOutputs]: as many entries as inputs, none blank. *)
Definition outputsRule (inputs outputs : list jsstring) : bool :=
  (length outputs =? length inputs) && negb (existsb blank outputs).

(** When the missing-fields filter selects [explanations]: the array is
    absent, empty, or a single blank entry. *)
Definition explanationsRejected (expl : option (list jsstring)) : bool :=
  match expl with
  | None => true
  | Some [] => true
  | Some [e] => blank e
  | Some (_ :: _ :: _) => false
  end.

(** The lines of a text: its pieces between line feeds. *)
Fixpoint splitLines (s : jsstring) : list jsstring :=
  match s with
  | [] => [ [] ]
  | c :: rest =>
      if (c =? 10)%N then [] :: splitLines rest
      else
        match splitLines rest with
        | l :: ls => (c :: l) :: ls
        | [] => [ [c] ]
        end
  end.

Definition noLineFeed (s : jsstring) : bool :=
  forallb (fun c => negb (c =? 10)%N) s.

Definition hasLine (l s : jsstring) : bool :=
  existsb (str_eqb l) (splitLines s).

(** The text contains a line that reads [Explanation:]. *)
Definition hasExplanationLine (s : jsstring) : bool :=
  hasLine (lit "Explanation:") s.

(** [explanations[index]], when the array and the entry are there. *)
Definition explanationEntry (expl : option (list jsstring)) (index : nat)
  : option jsstring :=
  match expl with
  | Some l => nth_error l index
  | None => None
  end.

(** The request got past validation and configuration, and the generator
    answered [responseText]. *)
Definition answered (generateContent : jsstring -> result jsstring)
  (key : option jsstring) (b : GenerationRequestData)
  (responseText : jsstring) : Prop :=
  exists inputs outputs,
    validateInput b = inr (inputs, outputs)
    /\ falsy (FText key) = false
    /\ generateContent (buildPrompt b inputs outputs) = Ok responseText.

(** The parsed answer has the [starterCode] strings [py], [js], [cpp] and
    [jv] under the four language keys, and the test cases [tcs], the first
    of which has non-empty strings as [input] and [expectedOutput]. *)
Definition hasShape (ga : value) (py js cpp jv : jsstring)
  (tcs : list value) : Prop :=
  exists sc tc rest i o,
    starterCode ga = Ok sc
    /\ getProp sc (lit "python") = Ok (VStr py)
    /\ getProp sc (lit "javascript") = Ok (VStr js)
    /\ getProp sc (lit "cpp") = Ok (VStr cpp)
    /\ getProp sc (lit "java") = Ok (VStr jv)
    /\ hiddenTestCases ga = Ok (VArr tcs)
    /\ tcs = tc :: rest
    /\ getProp tc (lit "input") = Ok (VStr i)
    /\ getProp tc (lit "expectedOutput") = Ok (VStr o)
    /\ is_empty i = false
    /\ is_empty o = false.

End Props.

(** ** Sample data *)

Module Samples.

Definition request (inputs outputs expl : list jsstring)
  : GenerationRequestData :=
  {| problemDescription := Some (lit "Add two integers.");
     constraints := Some (lit "1 <= a, b <= 1000");
     inputFormat := Some (lit "Two integers a and b.");
     outputFormat := Some (lit "One integer.");
     exampleInputs := Some inputs;
     exampleOutputs := Some outputs;
     explanations := Some expl |}.

Definition apiKey : option jsstring := Some (lit "secret").

(** An object graph of the expected schema with [n] test cases. *)
Definition testCase : value :=
  VObj [ (lit "input", VStr (lit "1 2")); (lit "expectedOutput", VStr (lit "3")) ].

Definition assets (python : jsstring) (n : nat) : value :=
  VObj
    [ (lit "starterCode",
       VObj [ (lit "python", VStr python);
              (lit "javascript", VStr (lit "function add(a, b) {}"));
              (lit "cpp", VStr (lit "int add(int a, int b) {}"));
              (lit "java", VStr (lit "class Solution {}")) ]);
      (lit "hiddenTestCases", VArr (repeat testCase n)) ].

(** The JSON text of [assets python n], for [python] free of characters that
    need escaping. *)
Definition testCaseText : jsstring :=
  lit "{" ++ quoted "input" ++ lit ":" ++ quoted "1 2" ++ lit ","
  ++ quoted "expectedOutput" ++ lit ":" ++ quoted "3" ++ lit "}".

Definition assetsText (python : jsstring) (n : nat) : jsstring :=
  lit "{" ++ quoted "starterCode" ++ lit ":{"
  ++ quoted "python" ++ lit ":" ++ dq ++ python ++ dq ++ lit ","
  ++ quoted "javascript" ++ lit ":" ++ quoted "function add(a, b) {}" ++ lit ","
  ++ quoted "cpp" ++ lit ":" ++ quoted "int add(int a, int b) {}" ++ lit ","
  ++ quoted "java" ++ lit ":" ++ quoted "class Solution {}" ++ lit "},"
  ++ quoted "hiddenTestCases" ++ lit ":["
  ++ join (lit ",") (repeat testCaseText n) ++ lit "]}".

(** Requests whose four text fields are filled: one with no example
    input, one with no example output, one with no explanation. *)
Definition noInputs : GenerationRequestData :=
  request [] [lit "3"] [lit "1 + 2 = 3"].

Definition noOutputs : GenerationRequestData :=
  request [lit "1 2"] [] [lit "1 + 2 = 3"].

Definition noExplanations : GenerationRequestData :=
  request [lit "1 2"] [lit "3"] [].

(** A request that passes validation. *)
Definition oneExample : GenerationRequestData :=
  request [lit "1 2"] [lit "3"] [lit "1 + 2 = 3"].

(** Two examples, the explanation of the second one holding two spaces. *)
Definition spacesExplanation : GenerationRequestData :=
  request [lit "1 2"; lit "5 6"] [lit "3"; lit "11"] [lit "1 + 2 = 3"; lit "  "].

(** The create form with the required texts and one example filled in, the
    explanation of the example, labelled optional on the page, left
    empty. *)
Definition formWithoutExplanation : Form.FormData :=
  Form.withContent Form.initialFormData
    {| Form.problemDescription := lit "Add two integers.";
       Form.constraints := lit "1 <= a, b <= 1000";
       Form.inputFormat := lit "Two integers a and b.";
       Form.outputFormat := lit "One integer.";
       Form.exampleInputs := [lit "1 2"];
       Form.exampleOutputs := [lit "3"];
       Form.explanations := [ [] ];
       Form.hiddenTestCases := [Form.emptyTestCase];
       Form.starterCode :=
         Form.starterCode (Form.content Form.initialFormData) |}.

(** A generator that answers [responseText] to every prompt. *)
Definition answers (responseText : jsstring) : jsstring -> result jsstring :=
  fun _ => Ok responseText.

(** A parser that yields [v] on [json] and rejects every other text. *)
Definition parsesTo (json : jsstring) (v : value) : jsstring -> result value :=
  fun s =>
    if str_eqb s json then Ok v
    else Throw (SyntaxError (lit "Unexpected token")).

(** The handler on answers with 17, 18, 20, 22 and 23 test cases. *)
Definition served (n : nat) : list logentry * response :=
  POST
    (parsesTo (assetsText (lit "def add(a, b):") n)
       (assets (lit "def add(a, b):") n))
    (answers (assetsText (lit "def add(a, b):") n))
    apiKey oneExample.

End Samples.

(** ** The create-question page: the other handlers *)

Module Page.

Import Form.

(** The names of the text areas wired to [handleContentChange] and to
    [handleStarterCodeChange]. *)
Inductive ContentField :=
| ProblemDescription | Constraints | InputFormat | OutputFormat.

Inductive Language := Python | Javascript | Cpp | Java.

(** [{ ...prev, content: { ...prev.content, [name]: value } }] *)
Definition handleContentChange (name : ContentField) (value : jsstring)
  (prev : FormData) : FormData :=
  let c := content prev in
  withContent prev
    {| problemDescription :=
         match name with ProblemDescription => value
                       | _ => problemDescription c end;
       constraints :=
         match name with Constraints => value | _ => constraints c end;
       inputFormat :=
         match name with InputFormat => value | _ => inputFormat c end;
       outputFormat :=
         match name with OutputFormat => value | _ => outputFormat c end;
       exampleInputs := exampleInputs c;
       exampleOutputs := exampleOutputs c;
       explanations := explanations c;
       hiddenTestCases := hiddenTestCases c;
       starterCode := starterCode c |}.

(** [{ ...prev.content.starterCode, [name]: value }] *)
Definition handleStarterCodeChange (name : Language) (value : jsstring)
  (prev : FormData) : FormData :=
  let c := content prev in
  let sc := starterCode c in
  withContent prev
    (withAssets c
       {| python := match name with Python => value | _ => python sc end;
          javascript :=
            match name with Javascript => value | _ => javascript sc end;
          cpp := match name with Cpp => value | _ => cpp sc end;
          java := match name with Java => value | _ => java sc end |}
       (hiddenTestCases c)).

(** *** Submitting *)

(** [tc.input.trim() !== '' && tc.expectedOutput.trim() !== ''] *)
Definition complete (tc : TestCase) : bool :=
  negb (Route.blank (input tc)) && negb (Route.blank (expectedOutput tc)).

(** [firstTestCaseValid] *)
Definition firstTestCaseValid (formData : FormData) : bool :=
  match hiddenTestCases (content formData) with
  | tc :: _ => complete tc
  | [] => false
  end.

Definition cleanExampleInputs (formData : FormData) : list jsstring :=
  filter (fun ex => negb (Route.blank ex)) (exampleInputs (content formData)).

(** [exampleOutputs.slice(0, cleanExampleInputs.length)] *)
Definition cleanExampleOutputs (formData : FormData) : list jsstring :=
  firstn (length (cleanExampleInputs formData))
    (exampleOutputs (content formData)).

Definition cleanExplanations (formData : FormData) : list jsstring :=
  firstn (length (cleanExampleInputs formData))
    (explanations (content formData)).

Definition cleanHiddenTestCases (formData : FormData) : list TestCase :=
  filter complete (hiddenTestCases (content formData)).

(** [serverTimestamp()] *)
Inductive FieldValue := ServerTimestamp.

(** The document handed to [addDoc]. *)
Record QuestionData (timestamp : Type) := {
  qSubjectId : jsstring;
  qType : jsstring;
  qOrder : N;
  qIsActive : bool;
  qDeadline : timestamp;
  createdAt : FieldValue;
  updatedAt : FieldValue;
  createdBy : jsstring;
  qContent : Content
}.
Arguments qSubjectId {timestamp} _.
Arguments qType {timestamp} _.
Arguments qOrder {timestamp} _.
Arguments qIsActive {timestamp} _.
Arguments qDeadline {timestamp} _.
Arguments createdAt {timestamp} _.
Arguments updatedAt {timestamp} _.
Arguments createdBy {timestamp} _.
Arguments qContent {timestamp} _.

(** Where [handleSubmit] stops without a stored document: the three checks
    before the [try], and the four places inside it that throw. *)
Inductive failure :=
| DeadlineRequired
| DescriptionRequired
| TestCaseRequired
| InvalidDeadline
| TimestampFailed (e : exn)
| NoCompleteTestCase
| StoreFailed (e : exn).

(** The text [setError] receives. *)
Definition shown (f : failure) : jsstring :=
  match f with
  | DeadlineRequired => lit "Please set a deadline."
  | DescriptionRequired => lit "Problem description is required."
  | TestCaseRequired =>
      lit "At least one valid hidden test case (with both input and output) is required."
  | InvalidDeadline =>
      lit "Invalid deadline format. Please use the date picker."
  | NoCompleteTestCase =>
      lit "Internal error: No complete hidden test cases found after filtering."
  | TimestampFailed e | StoreFailed e => message e
  end.

Inductive outcome (timestamp : Type) :=
| Stopped (f : failure)
| Created (q : QuestionData timestamp).
Arguments Stopped {timestamp} f.
Arguments Created {timestamp} q.

Section Submit.

Variables date timestamp : Type.

(** [new Date(s)]: [None] when the date is invalid ([getTime()] is NaN). *)
Variable newDate : jsstring -> option date.

(** [Timestamp.fromDate] *)
Variable fromDate : date -> result timestamp.

(** [user?.uid] *)
Variable uid : option jsstring.

(** [addDoc(collection(db, 'questions'), questionData)] *)
Variable addDoc : QuestionData timestamp -> result unit.

Definition questionData (formData : FormData) (deadlineTimestamp : timestamp)
  : QuestionData timestamp :=
  let c := content formData in
  {| qSubjectId := subjectId formData;
     qType := type formData;
     qOrder := order formData;
     qIsActive := isActive formData;
     qDeadline := deadlineTimestamp;
     createdAt := ServerTimestamp;
     updatedAt := ServerTimestamp;
     createdBy :=
       match uid with
       | Some u => if is_empty u then lit "unknown-admin" else u
       | None => lit "unknown-admin"
       end;
     qContent :=
       {| problemDescription := trim (problemDescription c);
          constraints := trim (constraints c);
          inputFormat := trim (inputFormat c);
          outputFormat := trim (outputFormat c);
          exampleInputs := cleanExampleInputs formData;
          exampleOutputs := cleanExampleOutputs formData;
          explanations := cleanExplanations formData;
          hiddenTestCases := cleanHiddenTestCases formData;
          starterCode := starterCode c |} |}.

Definition handleSubmit (formData : FormData) : outcome timestamp :=
  if is_empty (deadline formData) then Stopped DeadlineRequired
  else if Route.blank (problemDescription (content formData)) then
    Stopped DescriptionRequired
  else if negb (firstTestCaseValid formData) then Stopped TestCaseRequired
  else
    match newDate (deadline formData) with
    | None => Stopped InvalidDeadline
    | Some deadlineDate =>
        match fromDate deadlineDate with
        | Throw e => Stopped (TimestampFailed e)
        | Ok deadlineTimestamp =>
            if length (cleanHiddenTestCases formData) =? 0 then
              Stopped NoCompleteTestCase
            else
              match addDoc (questionData formData deadlineTimestamp) with
              | Throw e => Stopped (StoreFailed e)
              | Ok _ => Created (questionData formData deadlineTimestamp)
              end
        end
    end.

End Submit.

(** *** Pre-filling from a file *)

(** The object read from the uploaded file, with the types the form gives
    its fields; a property the file does not carry is [None]. *)
Record FileStarterCode := {
  filePython : option jsstring;
  fileJavascript : option jsstring;
  fileCpp : option jsstring;
  fileJava : option jsstring
}.

Record FileContent := {
  fileProblemDescription : option jsstring;
  fileConstraints : option jsstring;
  fileInputFormat : option jsstring;
  fileOutputFormat : option jsstring;
  fileExampleInputs : option (list jsstring);
  fileExampleOutputs : option (list jsstring);
  fileExplanations : option (list jsstring);
  fileHiddenTestCases : option (list TestCase);
  fileStarterCode : option FileStarterCode
}.

Record FileData := {
  fileOrder : option N;
  fileIsActive : option bool;
  fileDeadline : option jsstring;
  fileContent : option FileContent
}.

(** [x || ''] on an optional string. *)
Definition orEmpty (v : option jsstring) : jsstring :=
  match v with Some s => s | None => [] end.

(** [a?.length ? a : [d]] on an optional array. *)
Definition orSingle {A} (d : A) (v : option (list A)) : list A :=
  match v with
  | Some (x :: rest) => x :: rest
  | Some [] | None => [d]
  end.

(** [jsonData.content?.f] *)
Definition contentField {A} (jsonData : FileData)
  (f : FileContent -> option A) : option A :=
  match fileContent jsonData with
  | Some c => f c
  | None => None
  end.

(** [jsonData.content?.starterCode?.f] *)
Definition starterField (jsonData : FileData)
  (f : FileStarterCode -> option jsstring) : option jsstring :=
  match contentField jsonData fileStarterCode with
  | Some sc => f sc
  | None => None
  end.

Section Upload.

(** [new Date(s).toISOString()], which throws a [RangeError] on an invalid
    date. *)
Variable toISOString : jsstring -> result jsstring.

(** The updater [reader.onload] passes to [setFormData]; it throws when the
    deadline of the file is not a date. *)
Definition prefill (jsonData : FileData) (prev : FormData)
  : result FormData :=
  deadlineText <-
    match fileDeadline jsonData with
    | Some d =>
        if is_empty d then Ok []
        else iso <- toISOString d ;; Ok (firstn 16 iso)
    | None => Ok []
    end ;;
  Ok {| subjectId := subjectId prev;
        type := type prev;
        order := match fileOrder jsonData with
                 | Some o => o
                 | None => order prev
                 end;
        isActive := match fileIsActive jsonData with
                    | Some a => a
                    | None => isActive prev
                    end;
        deadline := deadlineText;
        content :=
          {| problemDescription :=
               orEmpty (contentField jsonData fileProblemDescription);
             constraints := orEmpty (contentField jsonData fileConstraints);
             inputFormat := orEmpty (contentField jsonData fileInputFormat);
             outputFormat := orEmpty (contentField jsonData fileOutputFormat);
             exampleInputs :=
               orSingle [] (contentField jsonData fileExampleInputs);
             exampleOutputs :=
               orSingle [] (contentField jsonData fileExampleOutputs);
             explanations :=
               orSingle [] (contentField jsonData fileExplanations);
             hiddenTestCases :=
               orSingle emptyTestCase
                 (contentField jsonData fileHiddenTestCases);
             starterCode :=
               {| python := orEmpty (starterField jsonData filePython);
                  javascript :=
                    orEmpty (starterField jsonData fileJavascript);
                  cpp := orEmpty (starterField jsonData fileCpp);
                  java := orEmpty (starterField jsonData fileJava) |} |} |}.

End Upload.

(** The entries [handleGenerateAssets] keeps of an example array. *)
Definition kept (a : list jsstring) : list jsstring :=
  filter (fun ex => negb (Route.blank ex)) a.

(** A string with no whitespace at either end. *)
Definition trimmed (s : jsstring) : bool :=
  match s with
  | [] => true
  | c :: _ => negb (is_ws c) && negb (is_ws (last s c))
  end.

End Page.

(** ** Further vocabulary: the page *)

Module PageFacts.

(** The submission stopped at the internal-error [throw]. *)
Definition internalError {timestamp} (o : Page.outcome timestamp) : bool :=
  match o with
  | Page.Stopped Page.NoCompleteTestCase => true
  | _ => false
  end.


End PageFacts.

(** ** Sample data for the page *)

Module Cases.

(** Stand-ins for the collaborators of [handleSubmit]: every non-empty
    text is a date, dates are their own timestamps, and the store accepts
    every document. *)
Definition newDate (s : jsstring) : option jsstring :=
  if is_empty s then None else Some s.

Definition fromDate (d : jsstring) : result jsstring := Ok d.

Definition uid : option jsstring := Some (lit "admin-1").

Definition addDoc (q : Page.QuestionData jsstring) : result unit := Ok tt.

Definition submit (formData : Form.FormData) : Page.outcome jsstring :=
  Page.handleSubmit jsstring jsstring newDate fromDate uid addDoc formData.

(** A form ready to be submitted, with the given examples. *)
Definition form (inputs outputs expl : list jsstring) : Form.FormData :=
  {| Form.subjectId := lit "icp";
     Form.type := lit "coding";
     Form.order := 1;
     Form.isActive := true;
     Form.deadline := lit "2030-01-01T10:00";
     Form.content :=
       {| Form.problemDescription := lit " Add two integers. ";
          Form.constraints := lit "1 <= a, b <= 1000";
          Form.inputFormat := lit "Two integers a and b.";
          Form.outputFormat := lit "One integer.";
          Form.exampleInputs := inputs;
          Form.exampleOutputs := outputs;
          Form.explanations := expl;
          Form.hiddenTestCases :=
            [ {| Form.input := lit "1 2"; Form.expectedOutput := lit "3" |};
              Form.emptyTestCase ];
          Form.starterCode :=
            Form.starterCode (Form.content Form.initialFormData) |} |}.

(** A file with two example inputs and one example output. *)
Definition unevenFile : Page.FileData :=
  {| Page.fileOrder := Some 2%N;
     Page.fileIsActive := None;
     Page.fileDeadline := None;
     Page.fileContent :=
       Some {| Page.fileProblemDescription := Some (lit "Add two integers.");
               Page.fileConstraints := Some (lit "1 <= a, b <= 1000");
               Page.fileInputFormat := Some (lit "Two integers a and b.");
               Page.fileOutputFormat := Some (lit "One integer.");
               Page.fileExampleInputs := Some [lit "1 2"; lit "5 6"];
               Page.fileExampleOutputs := Some [lit "3"];
               Page.fileExplanations := None;
               Page.fileHiddenTestCases := None;
               Page.fileStarterCode := None |} |}.

(** A stand-in for [toISOString] that accepts every text. *)
Definition toISOString (s : jsstring) : result jsstring := Ok s.

End Cases.

(** ** Further vocabulary: the route *)

Module Facts.

Import Props.

(** What the validation block asks of a request, with the arrays it hands
    on. *)
Definition acceptable (b : GenerationRequestData)
  (inputs outputs : list jsstring) : Prop :=
  textFieldsFilled b = true
  /\ exampleInputs b = Some inputs
  /\ inputsRule inputs = true
  /\ exampleOutputs b = Some outputs
  /\ outputsRule inputs outputs = true
  /\ explanationsRejected (explanations b) = false.

(** What the structural check asks of a parsed answer: truthy values under
    the four language keys of [starterCode], and an array of test cases
    whose first element has truthy [input] and [expectedOutput]. *)
Definition wellFormedBundle (ga : value) : Prop :=
  exists sc py js cpp jv tc rest i o,
    starterCode ga = Ok sc /\ truthy sc = true
    /\ getProp sc (lit "python") = Ok py /\ truthy py = true
    /\ getProp sc (lit "javascript") = Ok js /\ truthy js = true
    /\ getProp sc (lit "cpp") = Ok cpp /\ truthy cpp = true
    /\ getProp sc (lit "java") = Ok jv /\ truthy jv = true
    /\ hiddenTestCases ga = Ok (VArr (tc :: rest))
    /\ getProp tc (lit "input") = Ok i /\ truthy i = true
    /\ getProp tc (lit "expectedOutput") = Ok o /\ truthy o = true.

(** A string of whitespace characters only. *)
Definition whitespace (s : jsstring) : bool := forallb is_ws s.

(** A text field the missing-fields message names: absent, or made of
    whitespace only (the empty string included). *)
Definition textMissing (v : option jsstring) : bool :=
  match v with
  | None => true
  | Some s => whitespace s
  end.

(** An array field the missing-fields message names: absent, empty, or a
    single entry made of whitespace only. *)
Definition arrayMissing (v : option (list jsstring)) : bool :=
  match v with
  | None => true
  | Some [] => true
  | Some [e] => whitespace e
  | Some (_ :: _ :: _) => false
  end.

Definition isObject (v : value) : bool :=
  match v with VObj _ => true | _ => false end.

(** What the inner [catch] receives for a parsed answer that is not an
    object: the [TypeError] of reading [starterCode] of [null], or the
    handler's own [Error]. *)
Definition rejection (v : value) : exn :=
  match getProp v (lit "starterCode") with
  | Throw e => e
  | Ok _ => Error structureError
  end.


End Facts.

(** * Properties *)

(** ** Strings *)

Lemma str_eqb_refl s : str_eqb s s = true.
Proof.
  induction s as [|c s IH]; simpl; [reflexivity|].
  now rewrite N.eqb_refl, IH.
Qed.

Lemma str_eqb_eq a b : str_eqb a b = true <-> a = b.
Proof.
  split; [|intros ->; apply str_eqb_refl].
  revert b; induction a as [|x a IH]; intros [|y b]; simpl; try easy.
  intros H; apply andb_true_iff in H as [Hx Hs].
  apply N.eqb_eq in Hx; f_equal; auto.
Qed.

Lemma trimStart_nil_iff s : trimStart s = [] <-> forallb is_ws s = true.
Proof.
  induction s as [|c s IH]; simpl; [easy|].
  destruct (is_ws c); simpl; [exact IH|easy].
Qed.

Lemma forallb_trimStart s : forallb is_ws (trimStart s) = forallb is_ws s.
Proof.
  induction s as [|c s IH]; simpl; [reflexivity|].
  destruct (is_ws c) eqn:E; simpl; [exact IH|now rewrite E].
Qed.

Lemma forallb_rev {A} (f : A -> bool) l : forallb f (rev l) = forallb f l.
Proof.
  induction l as [|x l IH]; simpl; [reflexivity|].
  rewrite forallb_app, IH; simpl. rewrite andb_true_r. apply andb_comm.
Qed.

Lemma is_empty_nil_iff s : is_empty s = true <-> s = [].
Proof. destruct s; simpl; easy. Qed.

(** A string is blank exactly when all its characters are whitespace. *)
Lemma blank_forallb s : blank s = forallb is_ws s.
Proof.
  unfold blank, trim, trimEnd.
  rewrite <- (forallb_trimStart s), <- (forallb_rev is_ws (trimStart s)).
  remember (rev (trimStart s)) as r.
  destruct (forallb is_ws r) eqn:E.
  - apply trimStart_nil_iff in E. now rewrite E.
  - destruct (trimStart r) as [|c t] eqn:T.
    + apply trimStart_nil_iff in T. congruence.
    + destruct (rev (c :: t)) eqn:R; [|reflexivity].
      apply (f_equal (@rev N)) in R. rewrite rev_involutive in R. discriminate.
Qed.

Lemma blank_app a b : blank (a ++ b) = blank a && blank b.
Proof. rewrite !blank_forallb. apply forallb_app. Qed.

(** Trimming leaves alone a string that neither starts nor ends with
    whitespace. *)
Lemma trimStart_id c s : is_ws c = false -> trimStart (c :: s) = c :: s.
Proof. intros H; simpl; now rewrite H. Qed.

Lemma trim_id c s d :
  is_ws c = false -> is_ws d = false ->
  trim (c :: s ++ [d]) = c :: s ++ [d].
Proof.
  intros Hc Hd. unfold trim, trimEnd.
  rewrite (trimStart_id c _ Hc).
  assert (R : rev (c :: s ++ [d]) = d :: rev (c :: s)).
  { change (c :: s ++ [d]) with ((c :: s) ++ [d]). now rewrite rev_app_distr. }
  rewrite R, (trimStart_id d _ Hd), <- R. apply rev_involutive.
Qed.

Lemma startsWith_app p s : startsWith p (p ++ s) = true.
Proof.
  induction p as [|x p IH]; simpl; [reflexivity|].
  now rewrite N.eqb_refl.
Qed.

Lemma removePrefix_app p s : removePrefix p (p ++ s) = s.
Proof.
  unfold removePrefix. rewrite startsWith_app.
  induction p as [|x p IH]; simpl; auto.
Qed.

Lemma removeSuffix_app p s : removeSuffix p (s ++ p) = s.
Proof.
  unfold removeSuffix, endsWith.
  rewrite rev_app_distr, startsWith_app, length_app.
  replace (length s + length p - length p) with (length s + 0) by lia.
  rewrite firstn_app_2. simpl. apply app_nil_r.
Qed.

(** ** Request validation *)

Import Props.

Lemma absentOrBlank_isMissing v :
  isMissing (FText v) = absentOrBlank v.
Proof.
  destruct v as [s|]; [|reflexivity].
  unfold isMissing; simpl. destruct s; [reflexivity|]. reflexivity.
Qed.

Lemma textFields_required b name v :
  In (name, v) (textFields b) -> In (name, FText v) (requiredFields b).
Proof.
  unfold textFields, requiredFields; simpl.
  intros [H|[H|[H|[H|[]]]]]; inversion H; subst; auto 8.
Qed.

Lemma missing_In b name f :
  In (name, f) (requiredFields b) -> isMissing f = true ->
  In name (missingFields b).
Proof.
  intros Hin Hm. unfold missingFields.
  change name with (fst (name, f)). apply in_map.
  apply filter_In; split; [exact Hin|exact Hm].
Qed.

Lemma validateInput_missing b :
  missingFields b <> [] ->
  validateInput b = inl (errorResponse 400 (missingFieldsError (missingFields b))).
Proof.
  intros H. unfold validateInput.
  destruct (missingFields b); [congruence|reflexivity].
Qed.

(** C1: a request in which one of the four required text fields is absent or
    blank after trimming is answered 400 with the message
    [Missing required fields: ] followed by a comma-separated list, and the
    list names every one of the four fields that is absent or blank. *)
Theorem missing_fields_reported
  (JSON_parse : jsstring -> result value)
  (generateContent : jsstring -> result jsstring)
  (key : option jsstring) (b : GenerationRequestData) :
  textFieldsFilled b = false ->
  exists missing,
    POST JSON_parse generateContent key b
    = ([], {| status := 400;
              payload := ErrorBody (lit "Missing required fields: "
                                      ++ join (lit ", ") missing) |})
    /\ forall name v,
         In (name, v) (textFields b) -> absentOrBlank v = true ->
         In name missing.
Proof.
  intros Hblank. exists (missingFields b).
  assert (Hall : forall name v,
             In (name, v) (textFields b) -> absentOrBlank v = true ->
             In name (missingFields b)).
  { intros name v Hin Hv.
    apply (missing_In b name (FText v)).
    - now apply textFields_required.
    - now rewrite absentOrBlank_isMissing. }
  split; [|exact Hall].
  assert (Hne : missingFields b <> []).
  { unfold textFieldsFilled in Hblank.
    destruct (forallb_forall
                (fun entry => negb (absentOrBlank (snd entry))) (textFields b))
      as [_ Hf].
    destruct (existsb (fun entry => absentOrBlank (snd entry)) (textFields b))
      eqn:Hex.
    - apply existsb_exists in Hex as [[name v] [Hin Hv]].
      intros Hnil. specialize (Hall name v Hin Hv).
      rewrite Hnil in Hall. exact Hall.
    - exfalso. rewrite Hf in Hblank; [discriminate|].
      intros [name v] Hin. simpl.
      destruct (absentOrBlank v) eqn:Hv; [|reflexivity].
      assert (existsb (fun entry => absentOrBlank (snd entry)) (textFields b)
              = true) by (apply existsb_exists; exists (name, v); auto).
      congruence. }
  unfold POST. now rewrite (validateInput_missing b Hne).
Qed.

(** The request of scenario B: [constraints] is missing and
    [outputFormat] holds only spaces. *)
Lemma missing_fields_reported_witness :
  exists missing,
    POST (Samples.parsesTo [] VNull) (Samples.answers []) Samples.apiKey
      {| problemDescription := Some (lit "Add two integers.");
         constraints := None;
         inputFormat := Some (lit "Two integers.");
         outputFormat := Some (lit "   ");
         exampleInputs := Some [lit "1 2"];
         exampleOutputs := Some [lit "3"];
         explanations := Some [lit "1 + 2 = 3"] |}
    = ([], {| status := 400;
              payload := ErrorBody (lit "Missing required fields: "
                                      ++ join (lit ", ") missing) |})
    /\ In (lit "constraints") missing /\ In (lit "outputFormat") missing.
Proof.
  destruct (missing_fields_reported (Samples.parsesTo [] VNull)
              (Samples.answers []) Samples.apiKey
              {| problemDescription := Some (lit "Add two integers.");
                 constraints := None;
                 inputFormat := Some (lit "Two integers.");
                 outputFormat := Some (lit "   ");
                 exampleInputs := Some [lit "1 2"];
                 exampleOutputs := Some [lit "3"];
                 explanations := Some [lit "1 + 2 = 3"] |}
              eq_refl) as [missing [Hpost Hin]].
  exists missing. split; [exact Hpost|]. split.
  - apply (Hin (lit "constraints") None); simpl; auto.
  - apply (Hin (lit "outputFormat") (Some (lit "   "))); simpl; auto 6.
Defined.

Lemma missingFields_nil b :
  missingFields b = [] ->
  forall name f, In (name, f) (requiredFields b) -> isMissing f = false.
Proof.
  intros Hnil name f Hin.
  destruct (isMissing f) eqn:Hm; [|reflexivity].
  pose proof (missing_In b name f Hin Hm) as H.
  rewrite Hnil in H. destruct H.
Qed.

Lemma blank_comma_join l :
  blank (join (lit ",") l)
  = match l with
    | [] => true
    | [e] => blank e
    | _ :: _ :: _ => false
    end.
Proof.
  destruct l as [|x [|y rest]]; [reflexivity|reflexivity|].
  change (join (lit ",") (x :: y :: rest))
    with (x ++ lit "," ++ join (lit ",") (y :: rest)).
  rewrite !blank_app.
  replace (blank (lit ",")) with false by reflexivity.
  simpl. apply andb_false_r.
Qed.

Lemma isMissing_list l :
  isMissing (FList (Some l)) = explanationsRejected (Some l).
Proof. unfold isMissing; simpl falsy; simpl toString. apply blank_comma_join. Qed.

Lemma isMissing_filled l :
  l <> [] -> existsb blank l = false -> isMissing (FList (Some l)) = false.
Proof.
  intros Hne Hex. rewrite isMissing_list.
  destruct l as [|x [|y rest]]; simpl in *; [congruence| |reflexivity].
  now rewrite orb_false_r in Hex.
Qed.

Lemma missing_messages_distinct missing :
  missingFieldsError missing <> exampleInputsError
  /\ missingFieldsError missing <> exampleOutputsError.
Proof. split; intros H; vm_compute in H; discriminate. Qed.

Lemma length_eqb_0 {A} (l : list A) : (length l =? 0) = false -> l <> [].
Proof. destruct l; simpl; congruence. Qed.

(** C2, as amended: once the missing-fields check has passed, a blank entry
    among the example inputs is answered 400 with the example-inputs
    message; otherwise example outputs of a different number or with a blank
    entry are answered 400 with the example-outputs message; and both
    messages differ from every missing-fields message and from each
    other. *)
Theorem example_errors
  (JSON_parse : jsstring -> result value)
  (generateContent : jsstring -> result jsstring)
  (key : option jsstring) (b : GenerationRequestData)
  (inputs outputs : list jsstring) :
  missingFields b = [] ->
  exampleInputs b = Some inputs ->
  exampleOutputs b = Some outputs ->
  (existsb blank inputs = true ->
   POST JSON_parse generateContent key b
   = ([], {| status := 400;
             payload := ErrorBody
                          (lit "At least one valid example input is required.") |}))
  /\ (existsb blank inputs = false ->
      outputsRule inputs outputs = false ->
      POST JSON_parse generateContent key b
      = ([], {| status := 400;
                payload := ErrorBody
                             (lit "Example outputs are required, must match the number of inputs, and cannot be empty.") |}))
  /\ (forall missing,
         missingFieldsError missing <> exampleInputsError
         /\ missingFieldsError missing <> exampleOutputsError)
  /\ exampleInputsError <> exampleOutputsError.
Proof.
  intros Hnil Hin Hout.
  split; [|split; [|split]].
  - intros Hb. unfold POST, validateInput. rewrite Hnil, Hin. simpl.
    rewrite Hb, orb_true_r. reflexivity.
  - intros Hb Hrule. unfold POST, validateInput. rewrite Hnil, Hin. simpl.
    rewrite Hb, orb_false_r.
    assert (Hne : (length inputs =? 0) = false).
    { destruct inputs; [|reflexivity].
      pose proof (missingFields_nil b Hnil (lit "exampleInputs")
                    (FList (exampleInputs b))) as H.
      rewrite Hin in H. rewrite isMissing_list in H. simpl in H.
      apply H. unfold requiredFields. rewrite Hin.
      do 4 right. left. reflexivity. }
    rewrite Hne, Hout.
    unfold outputsRule in Hrule.
    destruct (length outputs =? length inputs); simpl in *;
      [|reflexivity].
    apply negb_false_iff in Hrule. now rewrite Hrule.
  - apply missing_messages_distinct.
  - intros H. vm_compute in H. discriminate.
Qed.

(** Two examples, the second input holding only a space and a tab. *)
Lemma example_errors_witness :
  POST (Samples.parsesTo [] VNull) (Samples.answers []) Samples.apiKey
    (Samples.request [lit "1 2"; [32; 9]%N] [lit "3"; lit "4"] [lit "sum"])
  = ([], {| status := 400;
            payload := ErrorBody
                         (lit "At least one valid example input is required.") |}).
Proof.
  apply (example_errors (Samples.parsesTo [] VNull) (Samples.answers [])
           Samples.apiKey
           (Samples.request [lit "1 2"; [32; 9]%N] [lit "3"; lit "4"] [lit "sum"])
           [lit "1 2"; [32; 9]%N] [lit "3"; lit "4"]);
    reflexivity.
Defined.

(** C2, as stated, fails: with the four text fields filled, an empty
    [exampleInputs] is answered with the missing-fields message naming
    [exampleInputs], and an empty [exampleOutputs] with the one naming
    [exampleOutputs], not with the messages of the example checks. *)
Lemma empty_examples_reported_as_missing :
  textFieldsFilled Samples.noInputs = true
  /\ exampleInputs Samples.noInputs = Some []
  /\ snd (POST (Samples.parsesTo [] VNull) (Samples.answers [])
            Samples.apiKey Samples.noInputs)
     = errorResponse 400 (lit "Missing required fields: exampleInputs")
  /\ errorResponse 400 (lit "Missing required fields: exampleInputs")
     <> errorResponse 400 exampleInputsError
  /\ textFieldsFilled Samples.noOutputs = true
  /\ exampleInputs Samples.noOutputs = Some [lit "1 2"]
  /\ exampleOutputs Samples.noOutputs = Some []
  /\ snd (POST (Samples.parsesTo [] VNull) (Samples.answers [])
            Samples.apiKey Samples.noOutputs)
     = errorResponse 400 (lit "Missing required fields: exampleOutputs")
  /\ errorResponse 400 (lit "Missing required fields: exampleOutputs")
     <> errorResponse 400 exampleOutputsError.
Proof.
  repeat split; try reflexivity; intros H; vm_compute in H; discriminate.
Qed.

Lemma textFieldsFilled_isMissing b :
  textFieldsFilled b = true ->
  isMissing (FText (problemDescription b)) = false
  /\ isMissing (FText (constraints b)) = false
  /\ isMissing (FText (inputFormat b)) = false
  /\ isMissing (FText (outputFormat b)) = false.
Proof.
  unfold textFieldsFilled, textFields; simpl.
  rewrite !absentOrBlank_isMissing, andb_true_r, !andb_true_iff,
    !negb_true_iff.
  tauto.
Qed.

Lemma validateInput_rules b inputs outputs :
  missingFields b = [] ->
  exampleInputs b = Some inputs -> inputsRule inputs = true ->
  exampleOutputs b = Some outputs -> outputsRule inputs outputs = true ->
  validateInput b = inr (inputs, outputs).
Proof.
  intros Hnil Hin Hi Hout Ho. unfold validateInput.
  rewrite Hnil, Hin, Hout. simpl.
  unfold inputsRule in Hi. unfold outputsRule in Ho.
  apply andb_true_iff in Hi as [Hi1 Hi2], Ho as [Ho1 Ho2].
  apply negb_true_iff in Hi1, Hi2, Ho2.
  now rewrite Hi1, Hi2, Ho1, Ho2.
Qed.

(** How the validator treats [explanations]: for a request whose four text
    fields, example inputs and example outputs satisfy their rules,
    validation succeeds unless [explanations] is absent, empty or a single
    blank entry, in which case the answer is 400 with
    [Missing required fields: explanations]. *)
Lemma explanations_checked_by_filter
  (b : GenerationRequestData) (inputs outputs : list jsstring) :
  textFieldsFilled b = true ->
  exampleInputs b = Some inputs -> inputsRule inputs = true ->
  exampleOutputs b = Some outputs -> outputsRule inputs outputs = true ->
  validateInput b
  = if explanationsRejected (explanations b)
    then inl {| status := 400;
                payload := ErrorBody
                             (lit "Missing required fields: explanations") |}
    else inr (inputs, outputs).
Proof.
  intros Ht Hin Hi Hout Ho.
  destruct (textFieldsFilled_isMissing b Ht) as (H1 & H2 & H3 & H4).
  assert (Hi' := Hi). assert (Ho' := Ho).
  unfold inputsRule in Hi'. unfold outputsRule in Ho'.
  apply andb_true_iff in Hi' as [Hi1 Hi2], Ho' as [Ho1 Ho2].
  apply negb_true_iff in Hi1, Hi2, Ho2.
  apply Nat.eqb_eq in Ho1.
  assert (H5 : isMissing (FList (exampleInputs b)) = false).
  { rewrite Hin. apply isMissing_filled; [now apply length_eqb_0|exact Hi2]. }
  assert (H6 : isMissing (FList (exampleOutputs b)) = false).
  { rewrite Hout. apply isMissing_filled; [|exact Ho2].
    apply length_eqb_0. now rewrite Ho1. }
  assert (H7 : isMissing (FList (explanations b))
               = explanationsRejected (explanations b)).
  { destruct (explanations b); [apply isMissing_list|reflexivity]. }
  assert (Hm : missingFields b
               = if explanationsRejected (explanations b)
                 then [lit "explanations"] else []).
  { unfold missingFields, requiredFields. simpl filter.
    rewrite H1, H2, H3, H4, H5, H6, H7.
    destruct (explanationsRejected (explanations b)); reflexivity. }
  destruct (explanationsRejected (explanations b)) eqn:Hr.
  - unfold validateInput. rewrite Hm. reflexivity.
  - now apply validateInput_rules.
Qed.

(** One example and two explanations, the second one blank: accepted. *)
Example two_explanations_accepted :
  validateInput (Samples.request [lit "1 2"] [lit "3"] [lit "sum"; lit " "])
  = inr ([lit "1 2"], [lit "3"]).
Proof. reflexivity. Qed.

(** C8: the validator is to put no constraint on [explanations], and the
    create page labels the explanation of an example as optional.  The
    handler nevertheless rejects the request the page sends when that
    explanation is left empty: the form passes the page's own pre-check,
    the request carries the text fields and examples in order and an empty
    [explanations], and the answer is 400 with
    [Missing required fields: explanations]. *)
Theorem empty_explanations_rejected :
  Form.readyToGenerate Samples.formWithoutExplanation = Some true
  /\ Form.generationRequest Samples.formWithoutExplanation
     = Samples.noExplanations
  /\ textFieldsFilled Samples.noExplanations = true
  /\ exampleInputs Samples.noExplanations = Some [lit "1 2"]
  /\ inputsRule [lit "1 2"] = true
  /\ exampleOutputs Samples.noExplanations = Some [lit "3"]
  /\ outputsRule [lit "1 2"] [lit "3"] = true
  /\ explanations Samples.noExplanations = Some []
  /\ validateInput Samples.noExplanations
     = inl (errorResponse 400 (lit "Missing required fields: explanations"))
  /\ POST (Samples.parsesTo [] VNull) (Samples.answers [])
       Samples.apiKey Samples.noExplanations
     = ([], errorResponse 400 (lit "Missing required fields: explanations")).
Proof. repeat split. Qed.

(** ** Response normalisation *)

Section Normalizer.

Variable JSON_parse : jsstring -> result value.
Variable generateContent : jsstring -> result jsstring.

(** Past validation and configuration the response is decided by the
    normaliser. *)
Lemma POST_answered key b responseText :
  answered generateContent key b responseText ->
  POST JSON_parse generateContent key b
  = match normalize JSON_parse responseText with
    | Throw parseError =>
        ([ConsoleError
            [LText (lit "Failed to parse Gemini response:"); LText responseText];
          ConsoleError [LText (lit "Parse error:"); LExn parseError]],
         errorResponse 500 processingError)
    | Ok (generatedAssets, warnings) =>
        (warnings, {| status := 200; payload := AssetsBody generatedAssets |})
    end.
Proof.
  intros (inputs & outputs & Hv & Hk & Hg).
  unfold POST. now rewrite Hv, Hk, Hg.
Qed.

Lemma clean_fenced_json t :
  cleanResponse (fenceJson ++ nl ++ t ++ nl ++ fence) = t.
Proof.
  unfold cleanResponse.
  assert (Htrim : trim (fenceJson ++ nl ++ t ++ nl ++ fence)
                  = fenceJson ++ nl ++ t ++ nl ++ fence).
  { replace (fenceJson ++ nl ++ t ++ nl ++ fence)
      with (96%N :: (tl fenceJson ++ nl ++ t ++ nl ++ [96; 96]%N) ++ [96%N]).
    - now apply trim_id.
    - simpl. now rewrite <- !app_assoc. }
  rewrite Htrim, startsWith_app.
  rewrite (app_assoc fenceJson nl), removePrefix_app.
  apply (removeSuffix_app (nl ++ fence) t).
Qed.

Lemma clean_fenced_plain t :
  cleanResponse (fence ++ nl ++ t ++ nl ++ fence) = t.
Proof.
  unfold cleanResponse.
  assert (Htrim : trim (fence ++ nl ++ t ++ nl ++ fence)
                  = fence ++ nl ++ t ++ nl ++ fence).
  { replace (fence ++ nl ++ t ++ nl ++ fence)
      with (96%N :: (tl fence ++ nl ++ t ++ nl ++ [96; 96]%N) ++ [96%N]).
    - now apply trim_id.
    - simpl. now rewrite <- !app_assoc. }
  rewrite Htrim.
  replace (startsWith fenceJson (fence ++ nl ++ t ++ nl ++ fence))
    with false by reflexivity.
  rewrite startsWith_app.
  rewrite (app_assoc fence nl), removePrefix_app.
  apply (removeSuffix_app (nl ++ fence) t).
Qed.

(** A text that starts with an opening brace and ends with a closing one,
    as the text of a JSON object without surrounding whitespace does, is
    left as it is. *)
Lemma clean_object_text s :
  cleanResponse (lit "{" ++ s ++ lit "}") = lit "{" ++ s ++ lit "}".
Proof.
  unfold cleanResponse.
  change (lit "{" ++ s ++ lit "}") with (123%N :: s ++ [125%N]).
  rewrite trim_id by reflexivity. reflexivity.
Qed.

(** The normaliser treats a text in a code fence, tagged [json] or
    untagged, as it treats the text inside the fence. *)
Lemma fenced_text_parsed_as_bare (t : jsstring) :
  normalize JSON_parse (lit "```json" ++ nl ++ t ++ nl ++ lit "```")
  = parseAssets JSON_parse t
  /\ normalize JSON_parse (lit "```" ++ nl ++ t ++ nl ++ lit "```")
     = parseAssets JSON_parse t.
Proof.
  unfold normalize. split.
  - exact (f_equal (parseAssets JSON_parse) (clean_fenced_json t)).
  - exact (f_equal (parseAssets JSON_parse) (clean_fenced_plain t)).
Qed.

(** C4: when the cleaned response text does not parse, the answer is 500
    with the fixed processing-failure message, which carries nothing of the
    raw text; the raw text and the parser's exception are written to the
    error log. *)
Theorem unparseable_response_reported key b responseText parseError :
  answered generateContent key b responseText ->
  JSON_parse (cleanResponse responseText) = Throw parseError ->
  POST JSON_parse generateContent key b
  = ([ConsoleError
        [LText (lit "Failed to parse Gemini response:"); LText responseText];
      ConsoleError [LText (lit "Parse error:"); LExn parseError]],
     {| status := 500;
        payload := ErrorBody
                     (lit "Failed to process AI response. Please check the format or try again.") |}).
Proof.
  intros Ha Hp. rewrite (POST_answered key b responseText Ha).
  unfold normalize, parseAssets. now rewrite Hp.
Qed.

End Normalizer.

(** The request [Samples.oneExample] reaches the generator. *)
Lemma oneExample_answered responseText :
  answered (Samples.answers responseText) Samples.apiKey Samples.oneExample
    responseText.
Proof. exists [lit "1 2"], [lit "3"]. repeat split. Qed.

(** Scenario C: the generator answers with prose. *)
Lemma unparseable_response_reported_witness :
  POST (Samples.parsesTo (Samples.assetsText (lit "def add(a, b):") 20)
          (Samples.assets (lit "def add(a, b):") 20))
    (Samples.answers (lit "Sure! Here are your test cases."))
    Samples.apiKey Samples.oneExample
  = ([ConsoleError
        [LText (lit "Failed to parse Gemini response:");
         LText (lit "Sure! Here are your test cases.")];
      ConsoleError
        [LText (lit "Parse error:");
         LExn (SyntaxError (lit "Unexpected token"))]],
     {| status := 500;
        payload := ErrorBody
                     (lit "Failed to process AI response. Please check the format or try again.") |}).
Proof.
  apply (unparseable_response_reported
           (Samples.parsesTo (Samples.assetsText (lit "def add(a, b):") 20)
              (Samples.assets (lit "def add(a, b):") 20))
           (Samples.answers (lit "Sure! Here are your test cases."))
           Samples.apiKey Samples.oneExample
           (lit "Sure! Here are your test cases.")
           (SyntaxError (lit "Unexpected token"))).
  - apply oneExample_answered.
  - reflexivity.
Defined.

Lemma getProp_string_object v k s :
  getProp v k = Ok (VStr s) -> truthy v = true.
Proof. destruct v; simpl; intros H; try discriminate; reflexivity. Qed.

Lemma truthy_string s : truthy (VStr s) = negb (is_empty s).
Proof. reflexivity. Qed.

(** The structural check on an answer of the expected shape fails exactly
    when one of the four starter-code strings is empty. *)
Lemma invalidStructure_shape ga py js cpp jv tcs :
  hasShape ga py js cpp jv tcs ->
  invalidStructure ga
  = Ok (is_empty py || is_empty js || is_empty cpp || is_empty jv).
Proof.
  intros (sc & tc & rest & i & o & Hsc & Hpy & Hjs & Hcpp & Hjv & Hh & Ht
          & Hi & Ho & Hie & Hoe).
  subst tcs. unfold invalidStructure.
  rewrite Hsc, Hh. unfold orElse, absent, bind.
  rewrite (getProp_string_object sc _ py Hpy).
  rewrite Hpy, Hjs, Hcpp, Hjv. unfold first, items, nth.
  rewrite Hi, Ho, !truthy_string, !negb_involutive, Hie, Hoe.
  simpl negb.
  destruct (is_empty py); [reflexivity|].
  destruct (is_empty js); [reflexivity|].
  destruct (is_empty cpp); [reflexivity|].
  destruct (is_empty jv); reflexivity.
Qed.

(** A structurally valid answer has a non-empty array of test cases. *)
Lemma invalidStructure_tests ga :
  invalidStructure ga = Ok false ->
  exists tcs, hiddenTestCases ga = Ok (VArr tcs) /\ 1 <= length tcs.
Proof.
  unfold invalidStructure, orElse, absent, bind.
  destruct (starterCode ga) as [sc|]; [|discriminate].
  destruct (negb (truthy sc)); [discriminate|].
  destruct (getProp sc (lit "python")) as [v1|]; [|discriminate].
  destruct (negb (truthy v1)); [discriminate|].
  destruct (getProp sc (lit "javascript")) as [v2|]; [|discriminate].
  destruct (negb (truthy v2)); [discriminate|].
  destruct (getProp sc (lit "cpp")) as [v3|]; [|discriminate].
  destruct (negb (truthy v3)); [discriminate|].
  destruct (getProp sc (lit "java")) as [v4|]; [|discriminate].
  destruct (negb (truthy v4)); [discriminate|].
  destruct (hiddenTestCases ga) as [h|]; [|discriminate].
  destruct (negb (truthy h)); [discriminate|].
  destruct h as [| | | | |tcs|]; simpl isArray; simpl negb;
    try discriminate.
  simpl items. destruct tcs as [|tc rest]; simpl length; simpl Nat.eqb;
    [discriminate|].
  intros _. exists (tc :: rest). split; [reflexivity|simpl; lia].
Qed.

Section Acceptance.

Variable JSON_parse : jsstring -> result value.
Variable generateContent : jsstring -> result jsstring.

Lemma normalize_valid responseText ga tcs :
  JSON_parse (cleanResponse responseText) = Ok ga ->
  invalidStructure ga = Ok false ->
  hiddenTestCases ga = Ok (VArr tcs) ->
  normalize JSON_parse responseText
  = Ok (ga, if (length tcs <? 18) || (22 <? length tcs)
            then [lengthWarning (length tcs)] else []).
Proof.
  intros Hp Hv Hh. unfold normalize, parseAssets.
  rewrite Hp. simpl bind. rewrite Hv. simpl bind. now rewrite Hh.
Qed.

Lemma normalize_invalid responseText ga :
  JSON_parse (cleanResponse responseText) = Ok ga ->
  invalidStructure ga = Ok true ->
  normalize JSON_parse responseText = Throw (Error structureError).
Proof.
  intros Hp Hv. unfold normalize, parseAssets.
  rewrite Hp. simpl bind. now rewrite Hv.
Qed.

(** C3, as amended: an answer that parses to an object with a string under
    each of the four [starterCode] keys, and test cases whose first element
    has non-empty [input] and [expectedOutput], is accepted and returned
    when the four strings are all non-empty; when one of them is the empty
    string it is rejected with the 500 processing-failure response. *)
Theorem empty_starter_code_rejected
  key b responseText ga py js cpp jv tcs :
  answered generateContent key b responseText ->
  JSON_parse (cleanResponse responseText) = Ok ga ->
  hasShape ga py js cpp jv tcs ->
  snd (POST JSON_parse generateContent key b)
  = if is_empty py || is_empty js || is_empty cpp || is_empty jv
    then {| status := 500;
            payload := ErrorBody
                         (lit "Failed to process AI response. Please check the format or try again.") |}
    else {| status := 200; payload := AssetsBody ga |}.
Proof.
  intros Ha Hp Hs. rewrite (POST_answered _ _ key b responseText Ha).
  pose proof (invalidStructure_shape _ _ _ _ _ _ Hs) as Hinv.
  destruct (is_empty py || is_empty js || is_empty cpp || is_empty jv).
  - now rewrite (normalize_invalid responseText ga Hp Hinv).
  - destruct Hs as (sc & tc & rest & i & o & _ & _ & _ & _ & _ & Hh & _).
    now rewrite (normalize_valid responseText ga tcs Hp Hinv Hh).
Qed.

(** C6: for a structurally valid answer the number of test cases is never
    fatal.  The answer is returned with status 200; nothing is logged when
    the number lies in [18, 22] (so for 18, 20 and 22), and one warning
    carrying the number is logged otherwise (so for 17). *)
Theorem test_case_count_advisory key b responseText ga :
  answered generateContent key b responseText ->
  JSON_parse (cleanResponse responseText) = Ok ga ->
  invalidStructure ga = Ok false ->
  exists tcs,
    hiddenTestCases ga = Ok (VArr tcs)
    /\ 1 <= length tcs
    /\ POST JSON_parse generateContent key b
       = (if (18 <=? length tcs) && (length tcs <=? 22) then []
          else [ConsoleWarn
                  [LText (lit "Gemini returned " ++ ofNat (length tcs)
                            ++ lit " test cases instead of 20.")]],
          {| status := 200; payload := AssetsBody ga |}).
Proof.
  intros Ha Hp Hv.
  destruct (invalidStructure_tests ga Hv) as (tcs & Hh & Hlen).
  exists tcs. split; [exact Hh|]. split; [exact Hlen|].
  rewrite (POST_answered _ _ key b responseText Ha).
  rewrite (normalize_valid responseText ga tcs Hp Hv Hh).
  replace ((18 <=? length tcs) && (length tcs <=? 22))
    with (negb ((length tcs <? 18) || (22 <? length tcs))).
  - destruct ((length tcs <? 18) || (22 <? length tcs)); reflexivity.
  - rewrite negb_orb. f_equal.
    + destruct (Nat.ltb_spec (length tcs) 18), (Nat.leb_spec 18 (length tcs));
        simpl; try reflexivity; lia.
    + destruct (Nat.ltb_spec 22 (length tcs)), (Nat.leb_spec (length tcs) 22);
        simpl; try reflexivity; lia.
Qed.

End Acceptance.

Lemma assets_hasShape py n :
  hasShape (Samples.assets py (S n)) py (lit "function add(a, b) {}")
    (lit "int add(int a, int b) {}") (lit "class Solution {}")
    (repeat Samples.testCase (S n)).
Proof.
  exists (VObj [ (lit "python", VStr py);
                 (lit "javascript", VStr (lit "function add(a, b) {}"));
                 (lit "cpp", VStr (lit "int add(int a, int b) {}"));
                 (lit "java", VStr (lit "class Solution {}")) ]),
    Samples.testCase, (repeat Samples.testCase n), (lit "1 2"), (lit "3").
  repeat split.
Qed.




(** Scenario A: a well-formed answer with 20 test cases, returned as is. *)
Lemma empty_starter_code_rejected_witness :
  snd (POST
         (Samples.parsesTo (Samples.assetsText (lit "def add(a, b):") 20)
            (Samples.assets (lit "def add(a, b):") 20))
         (Samples.answers (Samples.assetsText (lit "def add(a, b):") 20))
         Samples.apiKey Samples.oneExample)
  = {| status := 200;
       payload := AssetsBody (Samples.assets (lit "def add(a, b):") 20) |}.
Proof.
  apply (empty_starter_code_rejected
           (Samples.parsesTo (Samples.assetsText (lit "def add(a, b):") 20)
              (Samples.assets (lit "def add(a, b):") 20))
           (Samples.answers (Samples.assetsText (lit "def add(a, b):") 20))
           Samples.apiKey Samples.oneExample
           (Samples.assetsText (lit "def add(a, b):") 20)
           (Samples.assets (lit "def add(a, b):") 20)
           (lit "def add(a, b):") (lit "function add(a, b) {}")
           (lit "int add(int a, int b) {}") (lit "class Solution {}")
           (repeat Samples.testCase 20)).
  - apply oneExample_answered.
  - reflexivity.
  - apply assets_hasShape.
Defined.

(** C3, as stated, fails: an answer with the four language keys holding
    strings, the one for [python] empty, and 20 well-formed test cases is
    rejected with the 500 processing-failure response. *)
Lemma empty_python_starter_refused :
  hasShape (Samples.assets [] 20) [] (lit "function add(a, b) {}")
    (lit "int add(int a, int b) {}") (lit "class Solution {}")
    (repeat Samples.testCase 20)
  /\ Samples.parsesTo (Samples.assetsText [] 20) (Samples.assets [] 20)
       (cleanResponse (Samples.assetsText [] 20))
     = Ok (Samples.assets [] 20)
  /\ POST (Samples.parsesTo (Samples.assetsText [] 20) (Samples.assets [] 20))
       (Samples.answers (Samples.assetsText [] 20))
       Samples.apiKey Samples.oneExample
     = ([ConsoleError
           [LText (lit "Failed to parse Gemini response:");
            LText (Samples.assetsText [] 20)];
         ConsoleError
           [LText (lit "Parse error:");
            LExn (Error (lit "Invalid or incomplete structure in AI response."))]],
        errorResponse 500 processingError).
Proof.
  split; [apply assets_hasShape|]. split; vm_compute; reflexivity.
Qed.

(** Seventeen test cases inside a tagged fence: returned, with a warning. *)
Lemma test_case_count_advisory_witness :
  exists tcs,
    hiddenTestCases (Samples.assets (lit "def add(a, b):") 17)
    = Ok (VArr tcs)
    /\ 1 <= length tcs
    /\ POST
         (Samples.parsesTo (Samples.assetsText (lit "def add(a, b):") 17)
            (Samples.assets (lit "def add(a, b):") 17))
         (Samples.answers
            (lit "```json" ++ nl
             ++ Samples.assetsText (lit "def add(a, b):") 17 ++ nl ++ lit "```"))
         Samples.apiKey Samples.oneExample
       = (if (18 <=? length tcs) && (length tcs <=? 22) then []
          else [ConsoleWarn
                  [LText (lit "Gemini returned " ++ ofNat (length tcs)
                            ++ lit " test cases instead of 20.")]],
          {| status := 200;
             payload := AssetsBody (Samples.assets (lit "def add(a, b):") 17) |}).
Proof.
  apply (test_case_count_advisory
           (Samples.parsesTo (Samples.assetsText (lit "def add(a, b):") 17)
              (Samples.assets (lit "def add(a, b):") 17))
           (Samples.answers
              (lit "```json" ++ nl
               ++ Samples.assetsText (lit "def add(a, b):") 17 ++ nl
               ++ lit "```"))
           Samples.apiKey Samples.oneExample
           (lit "```json" ++ nl
            ++ Samples.assetsText (lit "def add(a, b):") 17 ++ nl ++ lit "```")
           (Samples.assets (lit "def add(a, b):") 17)).
  - apply oneExample_answered.
  - vm_compute. reflexivity.
  - vm_compute. reflexivity.
Defined.

Example served_17 :
  Samples.served 17
  = ([ConsoleWarn [LText (lit "Gemini returned 17 test cases instead of 20.")]],
     {| status := 200;
        payload := AssetsBody (Samples.assets (lit "def add(a, b):") 17) |}).
Proof. vm_compute. reflexivity. Qed.

Example served_in_range :
  fst (Samples.served 18) = [] /\ fst (Samples.served 20) = [] /\ fst (Samples.served 22) = []
  /\ status (snd (Samples.served 18)) = 200 /\ status (snd (Samples.served 20)) = 200
  /\ status (snd (Samples.served 22)) = 200.
Proof. repeat split; vm_compute; reflexivity. Qed.

Example served_23 :
  fst (Samples.served 23)
  = [ConsoleWarn [LText (lit "Gemini returned 23 test cases instead of 20.")]].
Proof. vm_compute. reflexivity. Qed.

(** ** Prompt construction *)

Lemma splitLines_cons s : exists l ls, splitLines s = l :: ls.
Proof.
  induction s as [|c s (l & ls & IH)]; simpl; [now eauto|].
  destruct (c =? 10)%N; [now eauto|]. rewrite IH. now eauto.
Qed.

Lemma splitLines_app a b :
  splitLines (a ++ nl ++ b) = splitLines a ++ splitLines b.
Proof.
  induction a as [|c a IH]; [reflexivity|].
  simpl app. simpl splitLines. destruct (c =? 10)%N.
  - simpl. f_equal. exact IH.
  - change (a ++ 10%N :: b) with (a ++ nl ++ b). rewrite IH.
    destruct (splitLines_cons a) as (l & ls & ->). reflexivity.
Qed.

Lemma hasLine_app l a b :
  hasLine l (a ++ nl ++ b) = hasLine l a || hasLine l b.
Proof. unfold hasLine. rewrite splitLines_app. apply existsb_app. Qed.

Lemma splitLines_single s : noLineFeed s = true -> splitLines s = [s].
Proof.
  induction s as [|c s IH]; simpl; [reflexivity|].
  intros H. apply andb_true_iff in H as [Hc Hs].
  apply negb_true_iff in Hc. rewrite Hc, (IH Hs). reflexivity.
Qed.

Lemma decimal_digits_noLineFeed fuel n acc :
  noLineFeed acc = true -> noLineFeed (decimal_digits fuel n acc) = true.
Proof.
  revert n acc. induction fuel as [|fuel IH]; intros n acc Hacc; simpl;
    [exact Hacc|].
  assert (Hd : noLineFeed (digit (n mod 10) :: acc) = true).
  { simpl. rewrite Hacc, andb_true_r. apply negb_true_iff, N.eqb_neq.
    unfold digit. lia. }
  destruct (n <? 10); [exact Hd|]. now apply IH.
Qed.

Lemma ofNat_noLineFeed n : noLineFeed (ofNat n) = true.
Proof. now apply decimal_digits_noLineFeed. Qed.

Lemma hasLine_join l segs :
  segs <> [] -> hasLine l (join nl segs) = existsb (hasLine l) segs.
Proof.
  induction segs as [|x [|y rest] IH]; intros Hne; [congruence| |].
  - simpl. now rewrite orb_false_r.
  - change (join nl (x :: y :: rest)) with (x ++ nl ++ join nl (y :: rest)).
    rewrite hasLine_app, IH by discriminate. reflexivity.
Qed.

Lemma exampleBlock_join outputs expl index input :
  exampleBlock outputs expl index input
  = join nl [ [];
              lit "Example " ++ ofNat (index + 1) ++ lit ":";
              lit "Input:";
              input;
              lit "Output:";
              text (nth_error outputs index);
              explanationPart expl index;
              [] ].
Proof.
  unfold exampleBlock. cbn [join]. rewrite app_nil_r, app_nil_l.
  now rewrite <- !app_assoc.
Qed.

Lemma header_not_explanation n :
  hasExplanationLine (lit "Example " ++ ofNat n ++ lit ":") = false.
Proof.
  unfold hasExplanationLine, hasLine.
  rewrite splitLines_single.
  - reflexivity.
  - unfold noLineFeed. rewrite !forallb_app.
    fold (noLineFeed (ofNat n)). now rewrite ofNat_noLineFeed.
Qed.

Lemma explanationPart_line expl index :
  hasExplanationLine (explanationPart expl index)
  = match explanationEntry expl index with
    | Some e => negb (is_empty e)
    | None => false
    end.
Proof.
  unfold explanationPart, explanationEntry.
  destruct expl as [l|]; [|reflexivity].
  destruct (nth_error l index) as [e|]; [|reflexivity].
  destruct (is_empty e); [reflexivity|].
  unfold hasExplanationLine. now rewrite hasLine_app.
Qed.

(** Where the Explanation lines of an example block come from. *)
Lemma exampleBlock_explanation_line outputs expl index input :
  hasExplanationLine (exampleBlock outputs expl index input)
  = hasExplanationLine input
    || hasExplanationLine (text (nth_error outputs index))
    || match explanationEntry expl index with
       | Some e => negb (is_empty e)
       | None => false
       end.
Proof.
  rewrite exampleBlock_join. unfold hasExplanationLine at 1.
  rewrite hasLine_join by discriminate.
  cbn [existsb].
  fold (hasExplanationLine (lit "Example " ++ ofNat (index + 1) ++ lit ":")).
  fold (hasExplanationLine (explanationPart expl index)).
  fold (hasExplanationLine input).
  fold (hasExplanationLine (text (nth_error outputs index))).
  rewrite header_not_explanation, explanationPart_line.
  replace (hasLine (lit "Explanation:") []) with false by reflexivity.
  replace (hasLine (lit "Explanation:") (lit "Input:")) with false
    by reflexivity.
  replace (hasLine (lit "Explanation:") (lit "Output:")) with false
    by reflexivity.
  simpl orb. rewrite !orb_false_r. apply orb_assoc.
Qed.

Lemma mapi_from_nth {A B} (f : nat -> A -> B) l start index x :
  nth_error l index = Some x ->
  nth_error (mapi_from f start l) index = Some (f (start + index) x).
Proof.
  revert start index. induction l as [|y l IH]; intros start [|index] H;
    simpl in *; try discriminate.
  - inversion H; subst. now rewrite Nat.add_0_r.
  - rewrite (IH (S start) index H). f_equal. f_equal. lia.
Qed.

(** C9, as amended: in the prompt of a validated request, the block of
    example [index] is the template instance for that example, and, for
    an input and an output that hold no line reading [Explanation:]
    themselves, the block has an Explanation line if and only if the
    explanations entry of that index is present and not the empty string.
    The entry is not trimmed. *)
Theorem explanation_line_iff_entry
  (b : GenerationRequestData) (inputs outputs : list jsstring)
  (index : nat) (input : jsstring) :
  validateInput b = inr (inputs, outputs) ->
  nth_error inputs index = Some input ->
  hasExplanationLine input = false ->
  hasExplanationLine (text (nth_error outputs index)) = false ->
  nth_error (exampleBlocks inputs outputs (explanations b)) index
  = Some (exampleBlock outputs (explanations b) index input)
  /\ (hasExplanationLine (exampleBlock outputs (explanations b) index input)
      = true
      <-> exists e,
            explanationEntry (explanations b) index = Some e /\ e <> []).
Proof.
  intros _ Hin Hi Ho. split.
  - unfold exampleBlocks, mapi.
    now rewrite (mapi_from_nth _ inputs 0 index input Hin).
  - rewrite exampleBlock_explanation_line, Hi, Ho. simpl orb.
    destruct (explanationEntry (explanations b) index) as [e|].
    + split.
      * intros He. exists e. split; [reflexivity|].
        intros ->. discriminate.
      * intros (e' & He' & Hne). inversion He'; subst.
        destruct e'; [congruence|reflexivity].
    + split; [discriminate|]. intros (e & He & _). discriminate.
Qed.

(** The second example of [Samples.spacesExplanation]: its explanation is
    two spaces, and its block has the Explanation line. *)
Lemma explanation_line_iff_entry_witness :
  nth_error
    (exampleBlocks [lit "1 2"; lit "5 6"] [lit "3"; lit "11"]
       (explanations Samples.spacesExplanation)) 1
  = Some (exampleBlock [lit "3"; lit "11"]
            (explanations Samples.spacesExplanation) 1 (lit "5 6"))
  /\ (hasExplanationLine
        (exampleBlock [lit "3"; lit "11"]
           (explanations Samples.spacesExplanation) 1 (lit "5 6"))
      = true
      <-> exists e,
            explanationEntry (explanations Samples.spacesExplanation) 1
            = Some e /\ e <> []).
Proof.
  apply (explanation_line_iff_entry Samples.spacesExplanation
           [lit "1 2"; lit "5 6"] [lit "3"; lit "11"] 1 (lit "5 6"));
    reflexivity.
Defined.

(** C9, as stated, fails: the request passes validation, the explanation of
    its second example is blank after trimming, and the second block of the
    prompt still has the Explanation line. *)
Lemma blank_explanation_rendered :
  validateInput Samples.spacesExplanation
  = inr ([lit "1 2"; lit "5 6"], [lit "3"; lit "11"])
  /\ explanationEntry (explanations Samples.spacesExplanation) 1
     = Some (lit "  ")
  /\ blank (lit "  ") = true
  /\ nth_error
       (exampleBlocks [lit "1 2"; lit "5 6"] [lit "3"; lit "11"]
          (explanations Samples.spacesExplanation)) 1
     = Some (nl ++ lit "Example 2:" ++ nl
             ++ lit "Input:" ++ nl ++ lit "5 6" ++ nl
             ++ lit "Output:" ++ nl ++ lit "11" ++ nl
             ++ lit "Explanation:" ++ nl ++ lit "  " ++ nl)
  /\ hasExplanationLine
       (nl ++ lit "Example 2:" ++ nl
        ++ lit "Input:" ++ nl ++ lit "5 6" ++ nl
        ++ lit "Output:" ++ nl ++ lit "11" ++ nl
        ++ lit "Explanation:" ++ nl ++ lit "  " ++ nl)
     = true.
Proof. repeat split. Qed.

(** ** The create-question form *)

Section FormState.

Import Form.

Lemma mapi_from_length {A B} (f : nat -> A -> B) start l :
  length (mapi_from f start l) = length l.
Proof.
  revert start. induction l as [|x l IH]; intros start; simpl;
    [reflexivity|now rewrite IH].
Qed.

Lemma setAt_length {A} index (f : A -> A) l :
  length (setAt index f l) = length l.
Proof. apply mapi_from_length. Qed.

(** Filtering out one index removes one element when the index is in range
    and nothing otherwise. *)
Lemma filteri_from_length {A} index start (l : list A) :
  length (filteri_from (fun i _ => negb (i =? index)) start l)
  = if (start <=? index) && (index <? start + length l)
    then length l - 1 else length l.
Proof.
  revert start. induction l as [|x l IH]; intros start; simpl.
  - now destruct ((start <=? index) && (index <? start + 0)).
  - rewrite Nat.sub_0_r.
    destruct (Nat.eqb_spec start index) as [->|Hne]; simpl.
    + rewrite IH.
      replace (S index <=? index) with false
        by (symmetry; apply Nat.leb_gt; lia).
      replace (index <=? index) with true
        by (symmetry; apply Nat.leb_le; lia).
      replace (index <? index + S (length l)) with true
        by (symmetry; apply Nat.ltb_lt; lia).
      reflexivity.
    + rewrite IH.
      destruct (Nat.leb_spec (S start) index),
        (Nat.leb_spec start index),
        (Nat.ltb_spec index (S start + length l)),
        (Nat.ltb_spec index (start + S (length l)));
        simpl; lia.
Qed.

Lemma removeAt_length {A} index (l : list A) :
  length (removeAt index l)
  = if index <? length l then length l - 1 else length l.
Proof.
  unfold removeAt, filteri. rewrite filteri_from_length. reflexivity.
Qed.

Lemma wellShaped_initial : wellShaped initialFormData.
Proof. unfold wellShaped; simpl; lia. Qed.

Lemma addExample_wellShaped s : wellShaped s -> wellShaped (addExample s).
Proof.
  unfold wellShaped, addExample; simpl. rewrite !length_app; simpl. lia.
Qed.

Lemma removeExample_wellShaped s index :
  wellShaped s -> wellShaped (removeExample s index s).
Proof.
  unfold wellShaped, removeExample.
  destruct (Nat.leb_spec (length (exampleInputs (content s))) 1) as [|Hlen];
    [tauto|].
  simpl. rewrite !removeAt_length. intros (-> & -> & _ & Ht).
  destruct (index <? length (exampleInputs (content s))); lia.
Qed.

Lemma handleExampleChange_wellShaped s index field value :
  wellShaped s -> wellShaped (handleExampleChange index field value s).
Proof.
  unfold wellShaped, handleExampleChange.
  destruct field; simpl; rewrite !setAt_length; lia.
Qed.

Lemma addTestCase_wellShaped s : wellShaped s -> wellShaped (addTestCase s).
Proof.
  unfold wellShaped, addTestCase; simpl. rewrite !length_app; simpl. lia.
Qed.

Lemma removeTestCase_wellShaped s index :
  wellShaped s -> wellShaped (removeTestCase s index s).
Proof.
  unfold wellShaped, removeTestCase.
  destruct (Nat.leb_spec (length (hiddenTestCases (content s))) 1) as [|Hlen];
    [tauto|].
  simpl. rewrite !removeAt_length.
  destruct (index <? length (hiddenTestCases (content s))); lia.
Qed.

Lemma handleTestCaseChange_wellShaped s index field value :
  wellShaped s -> wellShaped (handleTestCaseChange index field value s).
Proof.
  unfold wellShaped, handleTestCaseChange; simpl.
  rewrite !setAt_length; lia.
Qed.

Create HintDb shape.

#[local] Hint Resolve addExample_wellShaped removeExample_wellShaped
  handleExampleChange_wellShaped addTestCase_wellShaped
  removeTestCase_wellShaped handleTestCaseChange_wellShaped : shape.

Lemma step_wellShaped s ev : wellShaped s -> wellShaped (step s ev).
Proof. intros Hs. destruct ev; simpl; auto with shape. Qed.

(** Every state reached from the initial one by editing events has the
    shape. *)
Lemma run_wellShaped evs : wellShaped (fold_left step evs initialFormData).
Proof.
  assert (H : forall s, wellShaped s -> wellShaped (fold_left step evs s)).
  { induction evs as [|ev evs IH]; intros s Hs; simpl; [exact Hs|].
    apply IH. now apply step_wellShaped. }
  apply H, wellShaped_initial.
Qed.

(** C10: the initial form state has three example arrays of one common
    length, at least 1, and at least one hidden test case, and each of the
    six editing operations of the examples and test-case sections keeps
    that shape. *)
Theorem editing_keeps_shape (s : FormData) (ev : event) :
  wellShaped s -> wellShaped initialFormData /\ wellShaped (step s ev).
Proof.
  intros Hs. split; [exact wellShaped_initial|].
  destruct ev as [|i|i f v| |i|i f v].
  - exact (addExample_wellShaped s Hs).
  - exact (removeExample_wellShaped s i Hs).
  - exact (handleExampleChange_wellShaped s i f v Hs).
  - exact (addTestCase_wellShaped s Hs).
  - exact (removeTestCase_wellShaped s i Hs).
  - exact (handleTestCaseChange_wellShaped s i f v Hs).
Qed.

(** Removing the only example of the initial form. *)
Lemma editing_keeps_shape_witness :
  wellShaped initialFormData
  /\ wellShaped (step initialFormData (RemoveExample 0)).
Proof.
  apply (editing_keeps_shape initialFormData (RemoveExample 0)).
  unfold wellShaped; simpl; lia.
Defined.

(** Removal is refused on a single element, and carried out otherwise. *)
Example remove_only_example :
  step initialFormData (RemoveExample 0) = initialFormData
  /\ step initialFormData (RemoveTestCase 0) = initialFormData.
Proof. split; reflexivity. Qed.

Example add_then_remove_example :
  step (step (step initialFormData AddExample)
          (ExampleChange 1 ExampleInputs (lit "1 2")))
    (RemoveExample 0)
  = withContent initialFormData
      (withExamples (content initialFormData) [lit "1 2"] [ [] ] [ [] ]).
Proof. reflexivity. Qed.

(** C7: the merge leaves every field of the draft other than [starterCode]
    and [hiddenTestCases] as it was; [starterCode] becomes the generated
    mapping when the response carries one and stays the draft's otherwise;
    [hiddenTestCases] becomes the generated sequence when the response
    carries a non-empty one and stays the draft's otherwise. *)
Theorem merge_replaces_assets_only
  (generatedData : GeneratedData) (prev : FormData) :
  let next := mergeGenerated generatedData prev in
  problemDescription (content next) = problemDescription (content prev)
  /\ constraints (content next) = constraints (content prev)
  /\ inputFormat (content next) = inputFormat (content prev)
  /\ outputFormat (content next) = outputFormat (content prev)
  /\ exampleInputs (content next) = exampleInputs (content prev)
  /\ exampleOutputs (content next) = exampleOutputs (content prev)
  /\ explanations (content next) = explanations (content prev)
  /\ withContent next (content prev) = prev
  /\ starterCode (content next)
     = match generatedStarterCode generatedData with
       | Some generated => generated
       | None => starterCode (content prev)
       end
  /\ hiddenTestCases (content next)
     = match generatedTestCases generatedData with
       | Some (tc :: rest) => tc :: rest
       | Some [] | None => hiddenTestCases (content prev)
       end.
Proof.
  simpl. repeat split.
  - now destruct prev.
  - destruct (generatedTestCases generatedData) as [[|tc rest]|]; reflexivity.
Qed.

End FormState.

(** * Further properties of the route *)

Section RouteFacts.

Import Facts.

Variable JSON_parse : jsstring -> result value.
Variable generateContent : jsstring -> result jsstring.

Lemma validateInput_accepts b inputs outputs :
  validateInput b = inr (inputs, outputs) ->
  missingFields b = []
  /\ exampleInputs b = Some inputs
  /\ inputsRule inputs = true
  /\ exampleOutputs b = Some outputs
  /\ outputsRule inputs outputs = true.
Proof.
  unfold validateInput, inputsRule, outputsRule.
  destruct (missingFields b) as [|m ms]; [|discriminate]. simpl.
  destruct (exampleInputs b) as [ins|]; [|discriminate].
  destruct (length ins =? 0) eqn:H0; [discriminate|].
  destruct (existsb blank ins) eqn:Hb; [discriminate|]. simpl.
  destruct (exampleOutputs b) as [outs|]; [|discriminate].
  destruct (length outs =? length ins) eqn:Hl; [|discriminate].
  destruct (existsb blank outs) eqn:Hbo; [discriminate|]. simpl.
  intros H. inversion H; subst. rewrite H0, Hb, Hl, Hbo. auto 6.
Qed.

(** X1: the validation block accepts a request exactly when its four text
    fields are filled, its example inputs are non-empty without a blank
    entry, its example outputs are as many without a blank entry, and its
    explanations are neither absent, nor empty, nor a single blank
    entry. *)
Theorem validation_accepts_iff (b : GenerationRequestData)
  (inputs outputs : list jsstring) :
  validateInput b = inr (inputs, outputs) <-> acceptable b inputs outputs.
Proof.
  unfold acceptable. split.
  - intros H.
    destruct (validateInput_accepts b inputs outputs H)
      as (Hnil & Hin & Hi & Hout & Ho).
    assert (Hf : forall name f,
               In (name, f) (requiredFields b) -> isMissing f = false)
      by (apply missingFields_nil; exact Hnil).
    assert (Ht : textFieldsFilled b = true).
    { unfold textFieldsFilled. apply forallb_forall. intros [name v] Hv.
      simpl. rewrite <- absentOrBlank_isMissing.
      rewrite (Hf name (FText v)); [reflexivity|].
      now apply textFields_required. }
    repeat split; try assumption.
    rewrite (explanations_checked_by_filter b inputs outputs Ht Hin Hi Hout Ho)
      in H.
    destruct (explanationsRejected (explanations b));
      [discriminate|reflexivity].
  - intros (Ht & Hin & Hi & Hout & Ho & He).
    rewrite (explanations_checked_by_filter b inputs outputs Ht Hin Hi Hout Ho).
    now rewrite He.
Qed.

Lemma invalidStructure_wellFormed ga :
  invalidStructure ga = Ok false <-> wellFormedBundle ga.
Proof.
  unfold wellFormedBundle. split.
  - unfold invalidStructure, orElse, absent, bind.
    destruct (starterCode ga) as [sc|] eqn:Hsc; [|discriminate].
    destruct (truthy sc) eqn:Tsc; simpl negb; [|discriminate].
    destruct (getProp sc (lit "python")) as [py|] eqn:Hpy; [|discriminate].
    destruct (truthy py) eqn:Tpy; simpl negb; [|discriminate].
    destruct (getProp sc (lit "javascript")) as [js|] eqn:Hjs;
      [|discriminate].
    destruct (truthy js) eqn:Tjs; simpl negb; [|discriminate].
    destruct (getProp sc (lit "cpp")) as [cpp|] eqn:Hcpp; [|discriminate].
    destruct (truthy cpp) eqn:Tcpp; simpl negb; [|discriminate].
    destruct (getProp sc (lit "java")) as [jv|] eqn:Hjv; [|discriminate].
    destruct (truthy jv) eqn:Tjv; simpl negb; [|discriminate].
    destruct (hiddenTestCases ga) as [h|] eqn:Hh; [|discriminate].
    destruct (truthy h) eqn:Th; simpl negb; [|discriminate].
    destruct h as [| | | | |tcs|]; simpl isArray; simpl negb;
      try discriminate.
    simpl items. destruct tcs as [|tc rest]; simpl length; simpl Nat.eqb;
      [discriminate|].
    unfold first, items, nth.
    destruct (getProp tc (lit "input")) as [i|] eqn:Hi; [|discriminate].
    destruct (truthy i) eqn:Ti; simpl negb; [|discriminate].
    destruct (getProp tc (lit "expectedOutput")) as [o|] eqn:Ho;
      [|discriminate].
    destruct (truthy o) eqn:To; simpl negb; [|discriminate].
    intros _. exists sc, py, js, cpp, jv, tc, rest, i, o. auto 20.
  - intros (sc & py & js & cpp & jv & tc & rest & i & o & Hsc & Tsc & Hpy
            & Tpy & Hjs & Tjs & Hcpp & Tcpp & Hjv & Tjv & Hh & Hi & Ti & Ho
            & To).
    unfold invalidStructure, orElse, absent, bind.
    rewrite Hsc, Tsc, Hpy, Tpy, Hjs, Tjs, Hcpp, Tcpp, Hjv, Tjv, Hh.
    unfold first, items, nth. simpl truthy. simpl isArray. simpl negb.
    simpl length. simpl Nat.eqb. now rewrite Hi, Ti, Ho, To.
Qed.

(** X3: the structural check passes exactly when the parsed answer has truthy
    values under the four language keys of [starterCode] and an array of
    test cases whose first element has truthy [input] and [expectedOutput];
    the other test cases are not looked at. *)
Theorem structure_check_iff (ga : value) :
  invalidStructure ga = Ok false <-> wellFormedBundle ga.
Proof. exact (invalidStructure_wellFormed ga). Qed.

Lemma normalize_accepts responseText ga warnings :
  normalize JSON_parse responseText = Ok (ga, warnings) ->
  JSON_parse (cleanResponse responseText) = Ok ga
  /\ invalidStructure ga = Ok false.
Proof.
  unfold normalize, parseAssets, bind.
  destruct (JSON_parse (cleanResponse responseText)) as [v|]; [|discriminate].
  destruct (invalidStructure v) as [[|]|] eqn:Hinv; try discriminate.
  destruct (hiddenTestCases v); [|discriminate].
  intros H. inversion H; subst. auto.
Qed.

(** The cases of the handler, by what decides them. *)
Lemma POST_cases key b :
  (exists r, validateInput b = inl r
             /\ POST JSON_parse generateContent key b = ([], r)
             /\ status r = 400)
  \/ (exists inputs outputs,
        validateInput b = inr (inputs, outputs)
        /\ ((falsy (FText key) = true
             /\ snd (POST JSON_parse generateContent key b)
                = errorResponse 500 notConfiguredError)
            \/ (falsy (FText key) = false
                /\ exists e,
                     generateContent (buildPrompt b inputs outputs) = Throw e
                     /\ snd (POST JSON_parse generateContent key b)
                        = errorResponse 500
                            (lit "Generation failed: " ++ message e))
            \/ (exists responseText,
                  answered generateContent key b responseText
                  /\ ((exists e,
                         normalize JSON_parse responseText = Throw e
                         /\ snd (POST JSON_parse generateContent key b)
                            = errorResponse 500 processingError)
                      \/ (exists ga warnings,
                            normalize JSON_parse responseText
                            = Ok (ga, warnings)
                            /\ snd (POST JSON_parse generateContent key b)
                               = {| status := 200;
                                    payload := AssetsBody ga |}))))).
Proof.
  destruct (validateInput b) as [r|[inputs outputs]] eqn:Hv.
  - left. exists r. split; [reflexivity|]. split.
    + unfold POST. now rewrite Hv.
    + revert Hv. unfold validateInput.
      destruct (0 <? length (missingFields b));
        [intros H; inversion H; reflexivity|].
      destruct (exampleInputs b) as [ins|];
        [|intros H; inversion H; reflexivity].
      destruct ((length ins =? 0) || existsb blank ins);
        [intros H; inversion H; reflexivity|].
      destruct (exampleOutputs b) as [outs|];
        [|intros H; inversion H; reflexivity].
      destruct (negb (length outs =? length ins) || existsb blank outs);
        intros H; inversion H; reflexivity.
  - right. exists inputs, outputs. split; [reflexivity|].
    destruct (falsy (FText key)) eqn:Hk.
    + left. split; [reflexivity|]. unfold POST. now rewrite Hv, Hk.
    + right.
      destruct (generateContent (buildPrompt b inputs outputs))
        as [responseText|e] eqn:Hg.
      * right. exists responseText.
        assert (Ha : answered generateContent key b responseText)
          by (exists inputs, outputs; auto).
        split; [exact Ha|].
        rewrite (POST_answered JSON_parse generateContent key b
                   responseText Ha).
        destruct (normalize JSON_parse responseText) as [[ga warnings]|e].
        -- right. exists ga, warnings. split; reflexivity.
        -- left. exists e. split; reflexivity.
      * left. split; [reflexivity|]. exists e. split; [reflexivity|].
        unfold POST. now rewrite Hv, Hk, Hg.
Qed.

(** X4: the handler answers 200, 400 or 500, and 400 exactly when the
    validation block rejects the request. *)
Theorem status_classes (key : option jsstring) (b : GenerationRequestData) :
  (status (snd (POST JSON_parse generateContent key b)) = 200
   \/ status (snd (POST JSON_parse generateContent key b)) = 400
   \/ status (snd (POST JSON_parse generateContent key b)) = 500)
  /\ (status (snd (POST JSON_parse generateContent key b)) = 400
      <-> exists r, validateInput b = inl r).
Proof.
  destruct (POST_cases key b)
    as [(r & Hv & Hp & Hs)
       |(inputs & outputs & Hv
         & [(_ & Hp)|[(_ & e & _ & Hp)
                     |(raw & _ & [(e & _ & Hp)|(ga & w & _ & Hp)])]])];
    rewrite Hp; simpl; rewrite ?Hs;
    (split; [auto|]);
    (split; [try discriminate; intros _; now exists r
            |try (intros _; reflexivity);
             intros (r' & Hr); rewrite Hv in Hr; discriminate]).
Qed.

(** X5: a 200 response is only ever given for an answer of the generator that
    parsed, after cleaning, to an object graph passing the structural
    check, and it carries that object graph unchanged. *)
Theorem success_carries_checked_bundle
  (key : option jsstring) (b : GenerationRequestData) :
  status (snd (POST JSON_parse generateContent key b)) = 200 ->
  exists responseText ga,
    answered generateContent key b responseText
    /\ JSON_parse (cleanResponse responseText) = Ok ga
    /\ wellFormedBundle ga
    /\ payload (snd (POST JSON_parse generateContent key b)) = AssetsBody ga.
Proof.
  destruct (POST_cases key b)
    as [(r & Hv & Hp & Hs)
       |(inputs & outputs & Hv
         & [(_ & Hp)|[(_ & e & _ & Hp)
                     |(raw & Ha & [(e & _ & Hp)|(ga & w & Hn & Hp)])]])];
    rewrite Hp; simpl; try discriminate.
  - rewrite Hs. discriminate.
  - intros _. exists raw, ga.
    destruct (normalize_accepts raw ga w Hn) as [Hparse Hok].
    split; [exact Ha|]. split; [exact Hparse|].
    split; [now apply invalidStructure_wellFormed|reflexivity].
Qed.


End RouteFacts.

(** Twenty test cases: the answer is returned. *)
Lemma success_carries_checked_bundle_witness :
  exists responseText ga,
    Props.answered
      (Samples.answers (Samples.assetsText (lit "def add(a, b):") 20))
      Samples.apiKey Samples.oneExample responseText
    /\ Samples.parsesTo (Samples.assetsText (lit "def add(a, b):") 20)
         (Samples.assets (lit "def add(a, b):") 20)
         (cleanResponse responseText)
       = Ok ga
    /\ Facts.wellFormedBundle ga
    /\ payload (snd (Samples.served 20)) = AssetsBody ga.
Proof.
  apply (success_carries_checked_bundle
           (Samples.parsesTo (Samples.assetsText (lit "def add(a, b):") 20)
              (Samples.assets (lit "def add(a, b):") 20))
           (Samples.answers (Samples.assetsText (lit "def add(a, b):") 20))
           Samples.apiKey Samples.oneExample).
  vm_compute. reflexivity.
Defined.


Section CleaningFacts.

Import Facts.

Lemma trimStart_whitespace ws s :
  whitespace ws = true -> trimStart (ws ++ s) = trimStart s.
Proof.
  induction ws as [|c ws IH]; simpl; [reflexivity|].
  intros H. apply andb_true_iff in H as [Hc Hws]. rewrite Hc. now apply IH.
Qed.

Lemma trim_surrounded ws1 ws2 c s d :
  whitespace ws1 = true -> whitespace ws2 = true ->
  is_ws c = false -> is_ws d = false ->
  trim (ws1 ++ (c :: s ++ [d]) ++ ws2) = c :: s ++ [d].
Proof.
  intros H1 H2 Hc Hd. unfold trim, trimEnd.
  rewrite (trimStart_whitespace ws1 _ H1).
  change ((c :: s ++ [d]) ++ ws2) with (c :: (s ++ [d]) ++ ws2).
  rewrite (trimStart_id c _ Hc).
  change (c :: (s ++ [d]) ++ ws2) with ((c :: s ++ [d]) ++ ws2).
  rewrite rev_app_distr, trimStart_whitespace
    by (unfold whitespace; now rewrite forallb_rev).
  assert (R : rev (c :: s ++ [d]) = d :: rev (c :: s)).
  { change (c :: s ++ [d]) with ((c :: s) ++ [d]). now rewrite rev_app_distr. }
  rewrite R, (trimStart_id d _ Hd), <- R. apply rev_involutive.
Qed.

Lemma cleanResponse_trim x y :
  trim x = trim y -> cleanResponse x = cleanResponse y.
Proof. unfold cleanResponse. now intros ->. Qed.

(** X8: whitespace around the generator's answer does not matter: an answer
    inside a code fence, tagged [json] or untagged, with whitespace before
    and after the fence is cleaned to the text inside the fence, and an
    unfenced object text with whitespace around it to the object text. *)
Theorem surrounding_whitespace_ignored (ws1 ws2 t : jsstring) :
  whitespace ws1 = true -> whitespace ws2 = true ->
  cleanResponse (ws1 ++ (lit "```json" ++ nl ++ t ++ nl ++ lit "```") ++ ws2)
  = t
  /\ cleanResponse (ws1 ++ (lit "```" ++ nl ++ t ++ nl ++ lit "```") ++ ws2)
     = t
  /\ cleanResponse (ws1 ++ (lit "{" ++ t ++ lit "}") ++ ws2)
     = lit "{" ++ t ++ lit "}".
Proof.
  intros H1 H2. split; [|split].
  - rewrite <- (clean_fenced_json t) at 2.
    apply cleanResponse_trim.
    replace (lit "```json" ++ nl ++ t ++ nl ++ lit "```")
      with (96%N :: (tl fenceJson ++ nl ++ t ++ nl ++ [96; 96]%N) ++ [96%N])
      by (simpl; now rewrite <- !app_assoc).
    replace (fenceJson ++ nl ++ t ++ nl ++ fence)
      with (96%N :: (tl fenceJson ++ nl ++ t ++ nl ++ [96; 96]%N) ++ [96%N])
      by (simpl; now rewrite <- !app_assoc).
    rewrite trim_surrounded, trim_id by (assumption || reflexivity).
    reflexivity.
  - rewrite <- (clean_fenced_plain t) at 2.
    apply cleanResponse_trim.
    replace (lit "```" ++ nl ++ t ++ nl ++ lit "```")
      with (96%N :: (tl fence ++ nl ++ t ++ nl ++ [96; 96]%N) ++ [96%N])
      by (simpl; now rewrite <- !app_assoc).
    replace (fence ++ nl ++ t ++ nl ++ fence)
      with (96%N :: (tl fence ++ nl ++ t ++ nl ++ [96; 96]%N) ++ [96%N])
      by (simpl; now rewrite <- !app_assoc).
    rewrite trim_surrounded, trim_id by (assumption || reflexivity).
    reflexivity.
  - rewrite <- (clean_object_text t) at 2.
    apply cleanResponse_trim.
    change (lit "{" ++ t ++ lit "}") with (123%N :: t ++ [125%N]).
    rewrite trim_surrounded, trim_id by (assumption || reflexivity).
    reflexivity.
Qed.

(** A line feed before the fence, a line feed and spaces after it. *)
Lemma surrounding_whitespace_ignored_witness :
  cleanResponse (nl ++ (lit "```json" ++ nl ++ lit "{}" ++ nl ++ lit "```")
                 ++ nl ++ lit "  ")
  = lit "{}"
  /\ cleanResponse (nl ++ (lit "```" ++ nl ++ lit "{}" ++ nl ++ lit "```")
                    ++ nl ++ lit "  ")
     = lit "{}"
  /\ cleanResponse (nl ++ (lit "{" ++ lit "{}" ++ lit "}") ++ nl ++ lit "  ")
     = lit "{" ++ lit "{}" ++ lit "}".
Proof.
  apply (surrounding_whitespace_ignored nl (nl ++ lit "  ") (lit "{}"));
    reflexivity.
Defined.

End CleaningFacts.

Section ValidationFacts.

Import Facts.

Lemma isMissing_text v : isMissing (FText v) = textMissing v.
Proof.
  rewrite absentOrBlank_isMissing.
  destruct v as [s|]; [apply blank_forallb|reflexivity].
Qed.

Lemma isMissing_array v : isMissing (FList v) = arrayMissing v.
Proof.
  destruct v as [l|]; [|reflexivity]. rewrite isMissing_list.
  destruct l as [|e [|e' rest]]; try reflexivity. apply blank_forallb.
Qed.

Lemma named_iff_missing (l : list (jsstring * field)) name f :
  In (name, f) l ->
  (forall f', In (name, f') l -> f' = f) ->
  In name (map fst (filter (fun entry => isMissing (snd entry)) l))
  <-> isMissing f = true.
Proof.
  intros Hin Huniq. split.
  - intros H. apply in_map_iff in H as ([name' f'] & Hname & Hf).
    simpl in Hname. subst name'. apply filter_In in Hf as [Hl Hm].
    now rewrite <- (Huniq f' Hl).
  - intros Hm. change name with (fst (name, f)). apply in_map.
    apply filter_In. auto.
Qed.

Ltac field_entry :=
  unfold requiredFields;
  match goal with
  | |- In _ _ => simpl; auto 10
  | |- forall f', In _ _ -> _ =>
      intros f' H; simpl in H;
      repeat (destruct H as [H|H]; [inversion H; reflexivity|]);
      destruct H
  end.

(** X2: which fields the missing-fields message names: a text field when it is
    absent or made of whitespace only, an array field when it is absent,
    empty or a single entry made of whitespace only.  An array of two or
    more entries is never named, whatever its entries. *)
Theorem missing_fields_named (b : GenerationRequestData) :
  (In (lit "problemDescription") (missingFields b)
   <-> textMissing (problemDescription b) = true)
  /\ (In (lit "constraints") (missingFields b)
      <-> textMissing (constraints b) = true)
  /\ (In (lit "inputFormat") (missingFields b)
      <-> textMissing (inputFormat b) = true)
  /\ (In (lit "outputFormat") (missingFields b)
      <-> textMissing (outputFormat b) = true)
  /\ (In (lit "exampleInputs") (missingFields b)
      <-> arrayMissing (exampleInputs b) = true)
  /\ (In (lit "exampleOutputs") (missingFields b)
      <-> arrayMissing (exampleOutputs b) = true)
  /\ (In (lit "explanations") (missingFields b)
      <-> arrayMissing (explanations b) = true).
Proof.
  unfold missingFields.
  repeat split;
    try (rewrite <- isMissing_text); try (rewrite <- isMissing_array);
    apply named_iff_missing; field_entry.
Qed.

End ValidationFacts.

Section PromptFacts.

(** X9: in the prompt of a request that passed validation there is one example
    block per example input, and the block of each example carries the
    number of the example counted from 1, its input and the output of the
    same index, which exists and is not blank: no block ever reads
    [undefined] for an output. *)
Theorem validated_blocks_pair_examples
  (b : GenerationRequestData) (inputs outputs : list jsstring) :
  validateInput b = inr (inputs, outputs) ->
  length (exampleBlocks inputs outputs (explanations b)) = length inputs
  /\ forall index input,
       nth_error inputs index = Some input ->
       exists output,
         nth_error outputs index = Some output
         /\ blank input = false
         /\ blank output = false
         /\ nth_error (exampleBlocks inputs outputs (explanations b)) index
            = Some (nl ++ lit "Example " ++ ofNat (index + 1) ++ lit ":" ++ nl
                    ++ lit "Input:" ++ nl ++ input ++ nl
                    ++ lit "Output:" ++ nl ++ output ++ nl
                    ++ explanationPart (explanations b) index ++ nl).
Proof.
  intros Hv.
  destruct (validateInput_accepts b inputs outputs Hv)
    as (_ & _ & Hi & _ & Ho).
  unfold Props.inputsRule in Hi. unfold Props.outputsRule in Ho.
  apply andb_true_iff in Hi as [_ Hi], Ho as [Hlen Ho].
  apply negb_true_iff in Hi, Ho. apply Nat.eqb_eq in Hlen.
  split; [apply mapi_from_length|].
  intros index input Hin.
  assert (Hlt : index < length outputs).
  { rewrite Hlen. apply nth_error_Some. congruence. }
  destruct (nth_error outputs index) as [output|] eqn:Hout;
    [|apply nth_error_Some in Hlt; congruence].
  exists output. split; [reflexivity|].
  assert (Hbi : blank input = false).
  { destruct (blank input) eqn:E; [|reflexivity].
    assert (existsb blank inputs = true)
      by (apply existsb_exists; exists input; split;
          [eapply nth_error_In; eauto|exact E]).
    congruence. }
  assert (Hbo : blank output = false).
  { destruct (blank output) eqn:E; [|reflexivity].
    assert (existsb blank outputs = true)
      by (apply existsb_exists; exists output; split;
          [eapply nth_error_In; eauto|exact E]).
    congruence. }
  split; [exact Hbi|]. split; [exact Hbo|].
  unfold exampleBlocks, mapi.
  rewrite (mapi_from_nth _ inputs 0 index input Hin).
  unfold exampleBlock. change (0 + index) with index.
  now rewrite Hout.
Qed.

(** Two examples: the second block pairs the second input and output. *)
Lemma validated_blocks_pair_examples_witness :
  length (exampleBlocks [lit "1 2"; lit "5 6"] [lit "3"; lit "11"]
            (explanations Samples.spacesExplanation))
  = 2
  /\ forall index input,
       nth_error [lit "1 2"; lit "5 6"] index = Some input ->
       exists output,
         nth_error [lit "3"; lit "11"] index = Some output
         /\ blank input = false
         /\ blank output = false
         /\ nth_error
              (exampleBlocks [lit "1 2"; lit "5 6"] [lit "3"; lit "11"]
                 (explanations Samples.spacesExplanation)) index
            = Some (nl ++ lit "Example " ++ ofNat (index + 1) ++ lit ":" ++ nl
                    ++ lit "Input:" ++ nl ++ input ++ nl
                    ++ lit "Output:" ++ nl ++ output ++ nl
                    ++ explanationPart (explanations Samples.spacesExplanation)
                         index
                    ++ nl).
Proof.
  apply (validated_blocks_pair_examples Samples.spacesExplanation
           [lit "1 2"; lit "5 6"] [lit "3"; lit "11"]).
  reflexivity.
Defined.

End PromptFacts.

Section AnswerFacts.

Import Facts.

Variable JSON_parse : jsstring -> result value.
Variable generateContent : jsstring -> result jsstring.

Lemma invalidStructure_non_object ga :
  isObject ga = false ->
  invalidStructure ga = Throw (rejection ga)
  \/ (invalidStructure ga = Ok true /\ rejection ga = Error structureError).
Proof.
  unfold invalidStructure, rejection, starterCode.
  destruct ga; simpl; try discriminate; intros _; auto.
Qed.

(** X7: an answer that is valid JSON but not an object (a number, a string, a
    boolean, an array, [null]) never gets past the structural check and
    never escapes the inner [catch]: the response is the 500
    processing-failure one, and the error log holds the raw answer and
    what was thrown, the [TypeError] of reading a property of [null]
    included. *)
Theorem non_object_answer_rejected
  (key : option jsstring) (b : GenerationRequestData)
  (responseText : jsstring) (ga : value) :
  Props.answered generateContent key b responseText ->
  JSON_parse (cleanResponse responseText) = Ok ga ->
  isObject ga = false ->
  POST JSON_parse generateContent key b
  = ([ConsoleError
        [LText (lit "Failed to parse Gemini response:"); LText responseText];
      ConsoleError [LText (lit "Parse error:"); LExn (rejection ga)]],
     {| status := 500;
        payload := ErrorBody
                     (lit "Failed to process AI response. Please check the format or try again.") |}).
Proof.
  intros Ha Hp Hobj.
  rewrite (POST_answered JSON_parse generateContent key b responseText Ha).
  unfold normalize, parseAssets. rewrite Hp. simpl bind.
  destruct (invalidStructure_non_object ga Hobj) as [->|[-> ->]];
    reflexivity.
Qed.

End AnswerFacts.

(** The generator answers [null]. *)
Lemma non_object_answer_rejected_witness :
  POST (Samples.parsesTo (lit "null") VNull) (Samples.answers (lit "null"))
    Samples.apiKey Samples.oneExample
  = ([ConsoleError
        [LText (lit "Failed to parse Gemini response:"); LText (lit "null")];
      ConsoleError
        [LText (lit "Parse error:");
         LExn (TypeError
                 (lit "Cannot read properties of null (reading 'starterCode')"))]],
     {| status := 500;
        payload := ErrorBody
                     (lit "Failed to process AI response. Please check the format or try again.") |}).
Proof.
  apply (non_object_answer_rejected
           (Samples.parsesTo (lit "null") VNull)
           (Samples.answers (lit "null"))
           Samples.apiKey Samples.oneExample (lit "null") VNull).
  - apply oneExample_answered.
  - reflexivity.
  - reflexivity.
Defined.

(** * Further properties of the create-question page *)

Section GenerateFacts.

Import Form Page.

Lemma kept_no_blank a : existsb Route.blank (kept a) = false.
Proof.
  unfold kept. induction a as [|x a IH]; simpl; [reflexivity|].
  destruct (Route.blank x) eqn:Hx; simpl; [exact IH|now rewrite Hx].
Qed.

Lemma kept_first x a : Route.blank x = false -> kept (x :: a) = x :: kept a.
Proof. intros Hx. unfold kept. simpl. now rewrite Hx. Qed.

Lemma kept_missing a :
  isMissing (FList (Some (kept a)))
  = match kept a with [] => true | _ :: _ => false end.
Proof.
  rewrite isMissing_list. pose proof (kept_no_blank a) as H.
  destruct (kept a) as [|e [|e' rest]]; try reflexivity.
  simpl in H. now rewrite orb_false_r in H.
Qed.

Lemma readyToGenerate_filled formData :
  readyToGenerate formData = Some true ->
  Route.blank (problemDescription (content formData)) = false
  /\ Route.blank (constraints (content formData)) = false
  /\ Route.blank (inputFormat (content formData)) = false
  /\ Route.blank (outputFormat (content formData)) = false
  /\ (exists i0 irest,
        exampleInputs (content formData) = i0 :: irest
        /\ Route.blank i0 = false)
  /\ (exists o0 orest,
        exampleOutputs (content formData) = o0 :: orest
        /\ Route.blank o0 = false).
Proof.
  unfold readyToGenerate, firstBlank.
  destruct (Route.blank (problemDescription (content formData)));
    [discriminate|].
  destruct (Route.blank (constraints (content formData))); [discriminate|].
  destruct (Route.blank (inputFormat (content formData))); [discriminate|].
  destruct (Route.blank (outputFormat (content formData))); [discriminate|].
  simpl.
  destruct (exampleInputs (content formData)) as [|i0 irest];
    [discriminate|].
  destruct (Route.blank i0) eqn:Hi; [discriminate|].
  destruct (exampleOutputs (content formData)) as [|o0 orest];
    [discriminate|].
  destruct (Route.blank o0) eqn:Ho; [discriminate|].
  intros _. repeat split; eauto.
Qed.

Lemma blank_isMissing_text s :
  Route.blank s = false -> isMissing (FText (Some s)) = false.
Proof. intros H. now rewrite absentOrBlank_isMissing. Qed.

(** X10: what the route answers to the request the page posts.  Once the
    pre-check of the page has passed, the validation block can object in
    two ways only: with [Missing required fields: explanations] when no
    explanation is filled in, and with the example-outputs message when
    the numbers of filled-in inputs and outputs differ; otherwise it hands
    on the filled-in inputs and outputs. *)
Theorem page_request_validation (formData : FormData) :
  readyToGenerate formData = Some true ->
  validateInput (generationRequest formData)
  = match kept (explanations (content formData)) with
    | [] =>
        inl {| status := 400;
               payload := ErrorBody
                            (lit "Missing required fields: explanations") |}
    | _ :: _ =>
        if length (kept (exampleOutputs (content formData)))
           =? length (kept (exampleInputs (content formData)))
        then inr (kept (exampleInputs (content formData)),
                  kept (exampleOutputs (content formData)))
        else
          inl {| status := 400;
                 payload := ErrorBody
                              (lit "Example outputs are required, must match the number of inputs, and cannot be empty.") |}
    end.
Proof.
  intros Hready.
  destruct (readyToGenerate_filled formData Hready)
    as (H1 & H2 & H3 & H4 & (i0 & irest & Hi & Hi0) & (o0 & orest & Ho & Ho0)).
  assert (Hki : kept (exampleInputs (content formData)) = i0 :: kept irest)
    by (rewrite Hi; now apply kept_first).
  assert (Hko : kept (exampleOutputs (content formData)) = o0 :: kept orest)
    by (rewrite Ho; now apply kept_first).
  assert (Hm : missingFields (generationRequest formData)
               = match kept (explanations (content formData)) with
                 | [] => [lit "explanations"]
                 | _ :: _ => []
                 end).
  { unfold missingFields, requiredFields, generationRequest.
    simpl filter. fold (kept (exampleInputs (content formData))).
    fold (kept (exampleOutputs (content formData))).
    fold (kept (explanations (content formData))).
    rewrite !blank_isMissing_text by assumption.
    rewrite !kept_missing, Hki, Hko.
    destruct (kept (explanations (content formData))); reflexivity. }
  unfold validateInput. rewrite Hm.
  destruct (kept (explanations (content formData))) as [|e es];
    [reflexivity|].
  change (Route.exampleInputs (generationRequest formData))
    with (Some (kept (exampleInputs (content formData)))).
  change (Route.exampleOutputs (generationRequest formData))
    with (Some (kept (exampleOutputs (content formData)))).
  cbv iota. rewrite !kept_no_blank, Hki. simpl.
  destruct (length (kept (exampleOutputs (content formData)))
            =? S (length (kept irest))); reflexivity.
Qed.

(** X11: on a form with the shape the editing operations keep, the pre-check of
    the page never throws. *)
Theorem precheck_total_on_shape (formData : FormData) :
  wellShaped formData -> exists ok, readyToGenerate formData = Some ok.
Proof.
  unfold wellShaped, readyToGenerate, firstBlank.
  intros (Ho & _ & Hi & _).
  destruct (exampleInputs (content formData)) as [|i0 irest];
    [simpl in Hi; lia|].
  destruct (exampleOutputs (content formData)) as [|o0 orest];
    [simpl in Ho; discriminate|].
  destruct (_ || _); [now eauto|].
  destruct (Route.blank i0); [now eauto|]. now eauto.
Qed.

(** X12: the updaters of the text areas and of the generated assets keep the
    shape as well: the merge replaces the test cases only by a non-empty
    sequence. *)
Theorem other_updaters_keep_shape
  (formData : FormData) (generatedData : GeneratedData)
  (name : ContentField) (language : Language) (value : jsstring) :
  wellShaped formData ->
  wellShaped (mergeGenerated generatedData formData)
  /\ wellShaped (handleContentChange name value formData)
  /\ wellShaped (handleStarterCodeChange language value formData).
Proof.
  unfold wellShaped. intros (H1 & H2 & H3 & H4).
  split; [|split]; simpl; repeat split; try assumption.
  destruct (generatedTestCases generatedData) as [[|tc rest]|]; simpl;
    try assumption; lia.
Qed.

End GenerateFacts.

(** No explanation filled in: the form of scenario C8. *)
Lemma page_request_validation_witness :
  validateInput (Form.generationRequest Samples.formWithoutExplanation)
  = inl {| status := 400;
           payload := ErrorBody
                        (lit "Missing required fields: explanations") |}.
Proof.
  apply (page_request_validation Samples.formWithoutExplanation).
  reflexivity.
Defined.

Lemma precheck_total_on_shape_witness :
  exists ok, Form.readyToGenerate Form.initialFormData = Some ok.
Proof.
  apply (precheck_total_on_shape Form.initialFormData).
  unfold Form.wellShaped; simpl; lia.
Defined.

Lemma other_updaters_keep_shape_witness :
  Form.wellShaped
    (Form.mergeGenerated
       {| Form.generatedStarterCode := None;
          Form.generatedTestCases := Some [] |}
       Form.initialFormData)
  /\ Form.wellShaped
       (Page.handleContentChange Page.Constraints (lit "n <= 10")
          Form.initialFormData)
  /\ Form.wellShaped
       (Page.handleStarterCodeChange Page.Python (lit "n <= 10")
          Form.initialFormData).
Proof.
  apply (other_updaters_keep_shape Form.initialFormData
           {| Form.generatedStarterCode := None;
              Form.generatedTestCases := Some [] |}
           Page.Constraints Page.Python (lit "n <= 10")).
  unfold Form.wellShaped; simpl; lia.
Defined.

(** ** Trimming *)

Lemma trimStart_head s c t : trimStart s = c :: t -> is_ws c = false.
Proof.
  induction s as [|x s IH]; simpl; [discriminate|].
  destruct (is_ws x) eqn:Hx; [exact IH|].
  intros H. inversion H; subst. exact Hx.
Qed.

Lemma trimStart_suffix s : exists ws, s = ws ++ trimStart s.
Proof.
  induction s as [|x s (ws & IH)]; simpl; [now exists []|].
  destruct (is_ws x).
  - exists (x :: ws). simpl. now f_equal.
  - now exists [].
Qed.

(** The result of [trim] has no whitespace at either end. *)
Lemma trim_trimmed s : Page.trimmed (trim s) = true.
Proof.
  unfold trim, trimEnd.
  destruct (trimStart (rev (trimStart s))) as [|d u] eqn:Hu;
    [reflexivity|].
  pose proof (trimStart_head _ _ _ Hu) as Hd.
  destruct (trimStart_suffix (rev (trimStart s))) as (ws & Hrev).
  rewrite Hu in Hrev.
  apply (f_equal (@rev N)) in Hrev.
  rewrite rev_involutive, rev_app_distr in Hrev.
  simpl rev. simpl rev in Hrev.
  destruct (rev u ++ [d]) as [|c r] eqn:Hr;
    [destruct (rev u); discriminate|].
  unfold Page.trimmed.
  assert (Hc : is_ws c = false).
  { simpl in Hrev. now apply (trimStart_head s c (r ++ rev ws)). }
  rewrite Hc, <- Hr, last_last, Hd. reflexivity.
Qed.

Lemma trim_nonblank s : Route.blank s = false -> trim s <> [].
Proof. unfold Route.blank. now destruct (trim s). Qed.

(** ** Submitting the form *)

Section SubmitFacts.

Import Form Page PageFacts.

Variables date timestamp : Type.
Variable newDate : jsstring -> option date.
Variable fromDate : date -> result timestamp.
Variable uid : option jsstring.
Variable addDoc : QuestionData timestamp -> result unit.

Lemma firstTestCaseValid_clean formData :
  firstTestCaseValid formData = true ->
  exists tc rest rest',
    hiddenTestCases (content formData) = tc :: rest
    /\ cleanHiddenTestCases formData = tc :: rest'.
Proof.
  unfold firstTestCaseValid, cleanHiddenTestCases.
  destruct (hiddenTestCases (content formData)) as [|tc rest];
    [discriminate|].
  intros H. exists tc, rest, (filter complete rest). split; [reflexivity|].
  simpl. now rewrite H.
Qed.

(** What a stored document is made of. *)
Lemma submit_created formData q :
  handleSubmit date timestamp newDate fromDate uid addDoc formData = Created q ->
  Route.blank (problemDescription (content formData)) = false
  /\ firstTestCaseValid formData = true
  /\ exists deadlineTimestamp, q = questionData timestamp uid formData
                                     deadlineTimestamp.
Proof.
  unfold handleSubmit.
  destruct (is_empty (deadline formData)); [discriminate|].
  destruct (Route.blank (problemDescription (content formData)));
    [discriminate|].
  destruct (firstTestCaseValid formData); simpl; [|discriminate].
  destruct (newDate (deadline formData)) as [d|]; [|discriminate].
  destruct (fromDate d) as [ts|]; [|discriminate].
  destruct (length (cleanHiddenTestCases formData) =? 0); [discriminate|].
  destruct (addDoc _); [|discriminate].
  intros H. inversion H. eauto.
Qed.

(** X13: the internal-error [throw] of [handleSubmit] is never reached: the
    check on the first test case made before the [try] leaves at least
    that test case after filtering. *)
Theorem internal_error_unreachable (formData : FormData) :
  internalError (handleSubmit date timestamp newDate fromDate uid addDoc formData) = false.
Proof.
  unfold handleSubmit.
  destruct (is_empty (deadline formData)); [reflexivity|].
  destruct (Route.blank (problemDescription (content formData)));
    [reflexivity|].
  destruct (firstTestCaseValid formData) eqn:Hf; simpl; [|reflexivity].
  destruct (newDate (deadline formData)) as [d|]; [|reflexivity].
  destruct (fromDate d) as [ts|]; [|reflexivity].
  destruct (firstTestCaseValid_clean formData Hf)
    as (tc & rest & rest' & _ & ->).
  simpl. destruct (addDoc _); reflexivity.
Qed.

(** X14: a stored document is clean: its four texts carry no whitespace at
    either end and its description is not empty; no example input is
    blank and there are at most as many outputs and explanations as
    inputs (as many, when the form has its shape); its test cases are all
    complete and start with the first test case of the form. *)
Theorem stored_question_clean
  (formData : FormData) (q : QuestionData timestamp) :
  handleSubmit date timestamp newDate fromDate uid addDoc formData = Created q ->
  trimmed (problemDescription (qContent q)) = true
  /\ problemDescription (qContent q) <> []
  /\ trimmed (constraints (qContent q)) = true
  /\ trimmed (inputFormat (qContent q)) = true
  /\ trimmed (outputFormat (qContent q)) = true
  /\ existsb Route.blank (exampleInputs (qContent q)) = false
  /\ length (exampleOutputs (qContent q))
     <= length (exampleInputs (qContent q))
  /\ length (explanations (qContent q))
     <= length (exampleInputs (qContent q))
  /\ (wellShaped formData ->
      length (exampleOutputs (qContent q))
      = length (exampleInputs (qContent q))
      /\ length (explanations (qContent q))
         = length (exampleInputs (qContent q)))
  /\ forallb complete (hiddenTestCases (qContent q)) = true
  /\ exists tc rest rest',
       hiddenTestCases (content formData) = tc :: rest
       /\ hiddenTestCases (qContent q) = tc :: rest'.
Proof.
  intros H.
  destruct (submit_created formData q H) as (Hd & Hf & ts & ->).
  simpl qContent. cbn [problemDescription constraints inputFormat outputFormat
                       exampleInputs exampleOutputs explanations
                       hiddenTestCases].
  repeat split; try apply trim_trimmed.
  - now apply trim_nonblank.
  - apply kept_no_blank.
  - apply firstn_le_length.
  - apply firstn_le_length.
  - destruct H0 as (Ho & _). unfold cleanExampleOutputs.
    rewrite length_firstn, Ho. apply Nat.min_l.
    unfold cleanExampleInputs. apply filter_length_le.
  - destruct H0 as (_ & He & _). unfold cleanExplanations.
    rewrite length_firstn, He. apply Nat.min_l.
    unfold cleanExampleInputs. apply filter_length_le.
  - unfold cleanHiddenTestCases. apply forallb_forall.
    intros tc Htc. now apply filter_In in Htc.
  - now apply firstTestCaseValid_clean.
Qed.

Lemma kept_good good :
  existsb Route.blank good = false -> kept good = good.
Proof.
  unfold kept. induction good as [|x l IH]; simpl; [reflexivity|].
  intros H. apply orb_false_iff in H as [Hx Hl].
  rewrite Hx. simpl. f_equal. now apply IH.
Qed.

Lemma kept_bad bad : forallb Route.blank bad = true -> kept bad = [].
Proof.
  unfold kept. induction bad as [|x l IH]; simpl; [reflexivity|].
  intros H. apply andb_true_iff in H as [Hx Hl].
  rewrite Hx. simpl. now apply IH.
Qed.

(** X15: blank example inputs at the end of the list are dropped together with
    the outputs and explanations beside them: when the inputs of the form
    are non-blank ones followed by blank ones, the stored inputs are the
    non-blank ones and the stored outputs and explanations are the leading
    ones of the form, as many as there are stored inputs. *)
Theorem trailing_blank_examples_dropped
  (formData : FormData) (q : QuestionData timestamp)
  (good bad : list jsstring) :
  handleSubmit date timestamp newDate fromDate uid addDoc formData = Created q ->
  exampleInputs (content formData) = good ++ bad ->
  existsb Route.blank good = false ->
  forallb Route.blank bad = true ->
  exampleInputs (qContent q) = good
  /\ exampleOutputs (qContent q)
     = firstn (length good) (exampleOutputs (content formData))
  /\ explanations (qContent q)
     = firstn (length good) (explanations (content formData)).
Proof.
  intros H Hin Hgood Hbad.
  destruct (submit_created formData q H) as (_ & _ & ts & ->).
  assert (Hclean : cleanExampleInputs formData = good).
  { unfold cleanExampleInputs. rewrite Hin, filter_app.
    fold (kept good). fold (kept bad).
    rewrite (kept_good good Hgood), (kept_bad bad Hbad). apply app_nil_r. }
  simpl qContent.
  cbn [exampleInputs exampleOutputs explanations].
  unfold cleanExampleOutputs, cleanExplanations. rewrite Hclean. auto.
Qed.

(** X16: a blank example input that is followed by a filled-in one shifts the
    pairing: at the position of the blank input the stored document has
    the next filled-in input beside the output that stood beside the
    blank one. *)
Theorem blank_example_shifts_pairing
  (formData : FormData) (q : QuestionData timestamp)
  (good post : list jsstring) (blankInput next output : jsstring) :
  handleSubmit date timestamp newDate fromDate uid addDoc formData = Created q ->
  exampleInputs (content formData) = good ++ blankInput :: next :: post ->
  existsb Route.blank good = false ->
  Route.blank blankInput = true ->
  Route.blank next = false ->
  nth_error (exampleOutputs (content formData)) (length good) = Some output ->
  nth_error (exampleInputs (qContent q)) (length good) = Some next
  /\ nth_error (exampleOutputs (qContent q)) (length good) = Some output.
Proof.
  intros H Hin Hgood Hblank Hnext Hout.
  destruct (submit_created formData q H) as (_ & _ & ts & ->).
  assert (Hclean : cleanExampleInputs formData = good ++ next :: kept post).
  { unfold cleanExampleInputs. rewrite Hin, filter_app.
    fold (kept good). rewrite (kept_good good Hgood).
    simpl. now rewrite Hblank, Hnext. }
  simpl qContent. cbn [exampleInputs exampleOutputs].
  unfold cleanExampleOutputs. rewrite Hclean. split.
  - rewrite nth_error_app2, Nat.sub_diag by lia. reflexivity.
  - rewrite nth_error_firstn, length_app. simpl length.
    replace (length good <? length good + S (length (kept post))) with true
      by (symmetry; apply Nat.ltb_lt; lia).
    exact Hout.
Qed.

End SubmitFacts.

(** Two examples, the second one left empty, and an empty second test
    case: one example and one test case are stored. *)
Lemma stored_question_clean_witness :
  exists q,
    Cases.submit (Cases.form [lit "1 2"; []] [lit "3"; []] [lit "sum"; []])
    = Page.Created q
    /\ Form.problemDescription (Page.qContent q) = lit "Add two integers."
    /\ Form.exampleInputs (Page.qContent q) = [lit "1 2"]
    /\ length (Form.exampleOutputs (Page.qContent q))
       = length (Form.exampleInputs (Page.qContent q))
    /\ Page.trimmed (Form.problemDescription (Page.qContent q)) = true
    /\ forallb Page.complete (Form.hiddenTestCases (Page.qContent q)) = true.
Proof.
  eexists. split; [reflexivity|].
  destruct (stored_question_clean jsstring jsstring Cases.newDate
              Cases.fromDate Cases.uid Cases.addDoc
              (Cases.form [lit "1 2"; []] [lit "3"; []] [lit "sum"; []])
              _ eq_refl)
    as (Ht & _ & _ & _ & _ & _ & _ & _ & Hshape & Hc & _).
  split; [reflexivity|]. split; [reflexivity|].
  split; [apply Hshape; unfold Form.wellShaped; simpl; lia|].
  split; [exact Ht|exact Hc].
Defined.

Lemma trailing_blank_examples_dropped_witness :
  exists q,
    Cases.submit (Cases.form [lit "1 2"; []] [lit "3"; []] [lit "sum"; []])
    = Page.Created q
    /\ Form.exampleInputs (Page.qContent q) = [lit "1 2"]
    /\ Form.exampleOutputs (Page.qContent q) = [lit "3"]
    /\ Form.explanations (Page.qContent q) = [lit "sum"].
Proof.
  eexists. split; [reflexivity|].
  apply (trailing_blank_examples_dropped jsstring jsstring Cases.newDate
           Cases.fromDate Cases.uid Cases.addDoc
           (Cases.form [lit "1 2"; []] [lit "3"; []] [lit "sum"; []])
           _ [lit "1 2"] [ [] ]);
    reflexivity.
Defined.

(** The first example input left empty: the stored first example pairs the
    second input with the first output. *)
Lemma blank_example_shifts_pairing_witness :
  exists q,
    Cases.submit (Cases.form [[]; lit "5 6"] [lit "3"; lit "11"] [[]; []])
    = Page.Created q
    /\ nth_error (Form.exampleInputs (Page.qContent q)) 0 = Some (lit "5 6")
    /\ nth_error (Form.exampleOutputs (Page.qContent q)) 0 = Some (lit "3").
Proof.
  eexists. split; [reflexivity|].
  apply (blank_example_shifts_pairing jsstring jsstring Cases.newDate
           Cases.fromDate Cases.uid Cases.addDoc
           (Cases.form [[]; lit "5 6"] [lit "3"; lit "11"] [[]; []])
           _ [] [] [] (lit "5 6") (lit "3"));
    reflexivity.
Defined.

(** ** Pre-filling the form from a file *)

Section UploadFacts.

Import Form Page PageFacts.

Variable toISOString : jsstring -> result jsstring.


Lemma prefill_content jsonData prev next :
  prefill toISOString jsonData prev = Ok next ->
  subjectId next = subjectId prev
  /\ type next = type prev
  /\ exampleInputs (content next)
     = orSingle [] (contentField jsonData fileExampleInputs)
  /\ exampleOutputs (content next)
     = orSingle [] (contentField jsonData fileExampleOutputs)
  /\ explanations (content next)
     = orSingle [] (contentField jsonData fileExplanations)
  /\ hiddenTestCases (content next)
     = orSingle emptyTestCase (contentField jsonData fileHiddenTestCases)
  /\ problemDescription (content next)
     = orEmpty (contentField jsonData fileProblemDescription)
  /\ constraints (content next)
     = orEmpty (contentField jsonData fileConstraints)
  /\ inputFormat (content next)
     = orEmpty (contentField jsonData fileInputFormat)
  /\ outputFormat (content next)
     = orEmpty (contentField jsonData fileOutputFormat).
Proof.
  unfold prefill, bind.
  destruct (match fileDeadline jsonData with
            | Some d =>
                if is_empty d then Ok []
                else match toISOString d with
                     | Ok a => Ok (firstn 16 a)
                     | Throw e => Throw e
                     end
            | None => Ok []
            end) as [deadlineText|]; [|discriminate].
  intros H. inversion H; subst; simpl. repeat split.
Qed.


(** X18: a file may break the shape the editing operations rely on, and the
    pre-check may then throw.  When the file holds filled-in texts, two or
    more example inputs, the second one filled in, and a single example
    output, removing the first example of the pre-filled form leaves no
    example output, and the pre-check of the generate button throws on
    reading the first one. *)
Theorem uneven_file_then_removal_throws
  (jsonData : FileData) (prev next : FormData) (fc : FileContent)
  (pd cs fi fo i0 i1 o0 : jsstring) (irest : list jsstring) :
  prefill toISOString jsonData prev = Ok next ->
  fileContent jsonData = Some fc ->
  fileProblemDescription fc = Some pd -> Route.blank pd = false ->
  fileConstraints fc = Some cs -> Route.blank cs = false ->
  fileInputFormat fc = Some fi -> Route.blank fi = false ->
  fileOutputFormat fc = Some fo -> Route.blank fo = false ->
  fileExampleInputs fc = Some (i0 :: i1 :: irest) ->
  Route.blank i1 = false ->
  fileExampleOutputs fc = Some [o0] ->
  exampleOutputs (content (step next (RemoveExample 0))) = []
  /\ readyToGenerate (step next (RemoveExample 0)) = None.
Proof.
  intros H Hfc Hpd Bpd Hcs Bcs Hfi Bfi Hfo Bfo Hin Bi1 Hout.
  destruct (prefill_content jsonData prev next H)
    as (_ & _ & Hi & Ho & _ & _ & Hp & Hc & Hif & Hof).
  unfold contentField in *. rewrite Hfc in *.
  rewrite Hin in Hi. rewrite Hout in Ho.
  rewrite Hpd in Hp. rewrite Hcs in Hc. rewrite Hfi in Hif.
  rewrite Hfo in Hof. simpl in Hi, Ho, Hp, Hc, Hif, Hof.
  unfold step, removeExample. rewrite Hi. simpl Nat.leb. cbv iota.
  unfold readyToGenerate. simpl content.
  cbn [problemDescription constraints inputFormat outputFormat
       exampleInputs exampleOutputs withExamples].
  rewrite Ho, Hp, Hc, Hif, Hof, Bpd, Bcs, Bfi, Bfo.
  unfold removeAt, filteri. simpl. rewrite Bi1. split; reflexivity.
Qed.

End UploadFacts.


Lemma uneven_file_then_removal_throws_witness :
  exists next,
    Page.prefill Cases.toISOString Cases.unevenFile Form.initialFormData
    = Ok next
    /\ Form.exampleOutputs
         (Form.content (Form.step next (Form.RemoveExample 0)))
       = []
    /\ Form.readyToGenerate (Form.step next (Form.RemoveExample 0)) = None.
Proof.
  eexists. split; [reflexivity|].
  apply (uneven_file_then_removal_throws Cases.toISOString Cases.unevenFile
           Form.initialFormData _
           {| Page.fileProblemDescription := Some (lit "Add two integers.");
              Page.fileConstraints := Some (lit "1 <= a, b <= 1000");
              Page.fileInputFormat := Some (lit "Two integers a and b.");
              Page.fileOutputFormat := Some (lit "One integer.");
              Page.fileExampleInputs := Some [lit "1 2"; lit "5 6"];
              Page.fileExampleOutputs := Some [lit "3"];
              Page.fileExplanations := None;
              Page.fileHiddenTestCases := None;
              Page.fileStarterCode := None |}
           (lit "Add two integers.") (lit "1 <= a, b <= 1000")
           (lit "Two integers a and b.") (lit "One integer.")
           (lit "1 2") (lit "5 6") (lit "3") []);
    reflexivity.
Defined.
